(** * Keycloak device-authorization client: model and verified properties

    Shallow embedding of [scripts/get_keycloak_device_token.py].

    The script is a sequential program over two HTTP endpoints.  Its own
    control flow and the Python semantics of the operations it applies to
    the values it handles (dictionary lookup, truthiness, [or], [in],
    [int()], [str()], [str.rstrip], float subtraction and comparison) are
    written out.  What the outside world supplies (the
    environment variables, the parsed [--json] flag, what each [urlopen]
    call meets, the readings of [time.time()], the operator's line on
    standard input) is a [world]; what the script does to the outside
    world (printing, prompting, requests, clock reads, sleeping) is
    recorded, in order, in a trace of events.

    Functions of Python's standard library whose text is not part of the
    script (the JSON parser and printer, the form encoder, the decimal
    parser behind [int(str)], [repr] of floats and containers, the UTF-8
    decoder, the encoding of standard output) are the fields of the
    [PyLib] interface.

    A Python [str] is modelled by its UTF-8 bytes, a lone surrogate (which
    [json.loads] returns for an escape such as [\ud800]) by the three
    bytes that [surrogatepass] gives it.

    Assumptions of the model: it starts when [parser.parse_args()] has
    returned; [json.dumps], [urlencode] and the constructor of
    [urllib.request.Request] succeed; standard output accepts the
    script's own messages, the text of [json.dumps] and the lines of the
    instructions (what it does with the two texts printed as a server
    sent them, the non-JSON payload and the bare token, is modelled);
    [time.sleep] returns when the time it accepted has passed; no signal
    interrupts the process.  A run that leaves the model's loop for lack
    of fuel has the result [OutOfFuel], which no statement below takes
    for an exit. *)

From Stdlib Require Import ZArith Ascii String List SpecFloat.
From Stdlib.Strings Require Import Byte.
From stdpp Require Import base tactics option list strings gmap pretty.

Local Open Scope string_scope.
Local Open Scope list_scope.
Local Open Scope Z_scope.
Set Warnings "-register-all".

(** ** Values produced by [json.loads] *)

(** [None], [bool], [int], [float], [str], [list] and [dict] (in insertion
    order, which [json.dumps] observes). *)
Inductive json : Type :=
| JNull
| JBool (b : bool)
| JInt (n : Z)
| JFloat (x : spec_float)
| JStr (s : string)
| JList (items : list json)
| JDict (items : list (string * json)).

Abbreviation dict := (list (string * json)).

(** Exceptions the script can meet and does not catch. *)
Inductive exn : Type :=
| TypeError
| ValueError
| OverflowError
| AttributeError
| UnicodeDecodeError
| UnicodeEncodeError
| RecursionError
| URLError
| EOFError.

(** How a call of [json.loads] ends: with a value; with
    [json.JSONDecodeError], because the text is not a JSON document; or
    with another exception, such as [RecursionError] on a document nested
    too deep or [ValueError] on an integer with too many digits. *)
Inductive loaded : Type :=
| Loaded (v : json)
| NotJSON
| LoadFails (e : exn).

(** Python's standard library, as far as the script calls into it. *)
Class PyLib : Type := {
  decode_utf8 : list byte → option string;  (* bytes.decode("utf-8"); None: UnicodeDecodeError *)
  json_loads : string → loaded;             (* json.loads *)
  stdout_encodable : string → bool;         (* sys.stdout's encoding can represent the text *)
  json_dumps : json → string;               (* json.dumps(_, indent=2) *)
  urlencode : dict → string;                (* urllib.parse.urlencode *)
  int_of_str : string → option Z;           (* int(s) for a str; None: ValueError *)
  py_repr : json → string                   (* str() of a float, a list or a dict *)
}.

(** ** Python operations on values *)

(** [bool(v)] *)
Definition truthy (v : json) : bool :=
  match v with
  | JNull => false
  | JBool b => b
  | JInt n => negb (n =? 0)
  | JFloat (S754_zero _) => false
  | JFloat _ => true
  | JStr s => negb (String.eqb s "")
  | JList [] => false
  | JList _ => true
  | JDict [] => false
  | JDict _ => true
  end.

(** [a or b] *)
Definition py_or (a b : json) : json := if truthy a then a else b.

(** Lookup in a dict. *)
Fixpoint dict_lookup (k : string) (d : dict) : option json :=
  match d with
  | [] => None
  | (k', v) :: d' => if String.eqb k k' then Some v else dict_lookup k d'
  end.

(** [v == s] for a string literal [s] *)
Definition eq_str (v : json) (s : string) : bool :=
  match v with
  | JStr s' => String.eqb s' s
  | _ => false
  end.

(** [k in v] *)
Definition py_in (k : string) (v : json) : exn + bool :=
  match v with
  | JDict d => inr (if dict_lookup k d is Some _ then true else false)
  | JList l => inr (existsb (λ x, eq_str x k) l)
  | JStr s => inr (if String.index 0 k s is Some _ then true else false)
  | _ => inl TypeError
  end.

(** [v.get(k, dflt)] *)
Definition py_get_default (v : json) (k : string) (dflt : json) : exn + json :=
  match v with
  | JDict d => inr (default dflt (dict_lookup k d))
  | _ => inl AttributeError
  end.

(** [v.get(k)] *)
Definition py_get (v : json) (k : string) : exn + json :=
  py_get_default v k JNull.

(** Truncation of a binary64 toward zero. *)
Definition float_trunc (x : spec_float) : exn + Z :=
  match x with
  | S754_zero _ => inr 0
  | S754_infinity _ => inl OverflowError
  | S754_nan => inl ValueError
  | S754_finite s m e =>
      let a := Z.shiftl (Z.pos m) e in inr (if s then - a else a)
  end.

(** [int(v)] *)
Definition py_int `{PyLib} (v : json) : exn + Z :=
  match v with
  | JNull => inl TypeError
  | JBool b => inr (if b then 1 else 0)
  | JInt n => inr n
  | JFloat x => float_trunc x
  | JStr s => match int_of_str s with Some n => inr n | None => inl ValueError end
  | JList _ | JDict _ => inl TypeError
  end.

(** [str(v)], which is also what an f-string or [print] shows. *)
Definition py_str `{PyLib} (v : json) : string :=
  match v with
  | JNull => "None"
  | JBool true => "True"
  | JBool false => "False"
  | JInt n => pretty n
  | JStr s => s
  | _ => py_repr v
  end.

(** [s.rstrip(c)] for a one-character [c] *)
Fixpoint rstrip (c : ascii) (s : string) : string :=
  match s with
  | EmptyString => EmptyString
  | String a s' =>
      match rstrip c s' with
      | EmptyString => if Ascii.eqb a c then EmptyString else String a EmptyString
      | r => String a r
      end
  end.

(** Binary64 subtraction, and the comparison of a float with an [int],
    which Python carries out exactly. *)
Definition float_sub : spec_float → spec_float → spec_float := SFsub 53 1024.

Definition float_compare_int (x : spec_float) (n : Z) : option comparison :=
  match x with
  | S754_nan => None
  | S754_infinity s => Some (if s then Lt else Gt)
  | S754_zero _ => Some (0 ?= n)
  | S754_finite s m e =>
      let v := if s then Z.neg m else Z.pos m in
      Some (if 0 <=? e then (v * 2 ^ e ?= n) else (v ?= n * 2 ^ (- e)))
  end.

(** [x >= n] *)
Definition float_ge_int (x : spec_float) (n : Z) : bool :=
  match float_compare_int x n with
  | Some (Eq | Gt) => true
  | _ => false
  end.

(** [x > n] *)
Definition float_gt_int (x : spec_float) (n : Z) : bool :=
  match float_compare_int x n with
  | Some Gt => true
  | _ => false
  end.

(** ** The outside world, events and the state of a run *)

(** What one [urlopen] call meets: an exception ([URLError], which covers
    [HTTPError] for a status outside 2xx), or a body to [read()]. *)
Inductive http_reply : Type :=
| UrlopenRaises
| Body (raw : list byte).

Record world : Type := World {
  environ : gmap string string;   (* os.environ *)
  args_json : bool;               (* args.json *)
  replies : nat → http_reply;     (* what the k-th urlopen call meets *)
  clock : nat → spec_float;       (* the value of the k-th time.time() call *)
  stdin : option string           (* the line input() reads; None at end of file *)
}.

(** The calls by which the script acts on the outside world.  A trace
    records the call, not the stream: the prompt of [input] is written by
    the interpreter, to standard output or, when it reads a terminal
    without [readline], to standard error; it is a [Prompt] and neither a
    [Stdout] nor a [Stderr]. *)
Inductive event : Type :=
| Stdout (text : string)            (* print(text) *)
| Stderr (text : string)            (* print(text, file=sys.stderr) *)
| Prompt (text : string)            (* input(text) *)
| Request (url body : string)       (* urlopen of a POST request *)
| Clock (t : spec_float)            (* time.time() *)
| Sleep (secs : Z).                 (* time.sleep(secs) *)

Record state : Type := State {
  trace : list event;
  requests : nat;
  clock_reads : nat
}.

Definition init_state : state := State [] 0 0.

(** How a computation ends: it returns, [sys.exit] was called, an
    exception is on its way up, or the model's fuel ran out. *)
Inductive result (A : Type) : Type :=
| Return (a : A)
| SysExit (code : Z)
| Raise (e : exn)
| OutOfFuel.
Arguments Return {A} a.
Arguments SysExit {A} code.
Arguments Raise {A} e.
Arguments OutOfFuel {A}.

Definition M (A : Type) : Type := state → result A * state.

Global Instance M_ret : MRet M := λ A a st, (Return a, st).

Global Instance M_bind : MBind M := λ A B k m st,
  match m st with
  | (Return a, st') => k a st'
  | (SysExit c, st') => (SysExit c, st')
  | (Raise e, st') => (Raise e, st')
  | (OutOfFuel, st') => (OutOfFuel, st')
  end.

Definition sys_exit {A} (code : Z) : M A := λ st, (SysExit code, st).
Definition raise {A} (e : exn) : M A := λ st, (Raise e, st).
Definition out_of_fuel {A} : M A := λ st, (OutOfFuel, st).

(** An operation that yields a value or raises. *)
Definition lift {A} (r : exn + A) : M A :=
  match r with
  | inl e => raise e
  | inr a => mret a
  end.

Definition emit (e : event) : M unit :=
  λ st, (Return (), State (trace st ++ [e]) (requests st) (clock_reads st)).

Definition print (text : string) : M unit := emit (Stdout text).
Definition eprint (text : string) : M unit := emit (Stderr text).

(** [print(text)] where [text] is what a server sent: standard output,
    whose error handler is strict, raises [UnicodeEncodeError] on a text
    its encoding cannot represent, and nothing of it is written.
    (Standard error replaces what it cannot encode, and what
    [json.dumps] returns is ASCII.) *)
Definition print_checked `{PyLib} (text : string) : M unit :=
  if stdout_encodable text then print text else raise UnicodeEncodeError.

(** [urlopen(req)] and [resp.read()] *)
Definition urlopen (w : world) (url body : string) : M (list byte) :=
  λ st,
    let st' := State (trace st ++ [Request url body]) (S (requests st)) (clock_reads st) in
    match replies w (requests st) with
    | UrlopenRaises => (Raise URLError, st')
    | Body raw => (Return raw, st')
    end.

(** [time.time()] *)
Definition time_time (w : world) : M spec_float :=
  λ st,
    let t := clock w (clock_reads st) in
    (Return t, State (trace st ++ [Clock t]) (requests st) (S (clock_reads st))).

(** CPython keeps a length of time as a signed 64-bit number of
    nanoseconds: this is the largest whole number of seconds that fits. *)
Definition sleep_limit : Z := 9223372036.

(** [time.sleep(secs)]: a length beyond [sleep_limit], in either
    direction, is an [OverflowError], and a negative one within it a
    [ValueError]. *)
Definition time_sleep (secs : Z) : M unit :=
  if (secs <? - sleep_limit) || (sleep_limit <? secs) then raise OverflowError
  else if secs <? 0 then raise ValueError
  else emit (Sleep secs).

(** [input(prompt)] *)
Definition input (w : world) (prompt : string) : M string :=
  emit (Prompt prompt);;
  match stdin w with
  | Some line => mret line
  | None => raise EOFError
  end.

(** The exit status of the process: [raise SystemExit(main())] turns the
    value [main] returns into the status, [sys.exit] sets it directly, and
    an exception nobody catches ends the process with a traceback and
    status 1. *)
Definition exit_status (r : result Z) : option Z :=
  match r with
  | Return n => Some n
  | SysExit c => Some c
  | Raise _ => Some 1
  | OutOfFuel => None
  end.

(** ** The script *)

Definition nl : string := String "010"%char "".

(** What one pass through the body of [while True] decides. *)
Inductive flow : Type :=
| Continue
| Done (code : Z).

Section Script.
Context `{PyLib} (w : world).

(** [a or b], where [b] is evaluated only when [a] is falsy *)
Definition or_else (a b : M json) : M json :=
  x ← a; if truthy x then mret x else b.

Definition require_env (name : string) : M string :=
  match environ w !! name with
  | None | Some "" => eprint (name +:+ " is required");; sys_exit 1
  | Some value => mret value
  end.

Definition post_form (url : string) (data : dict) : M json :=
  let body := urlencode data in
  raw ← urlopen w url body;
  match decode_utf8 raw with
  | None => raise UnicodeDecodeError
  | Some payload =>
      match json_loads payload with
      | Loaded v => mret v
      | NotJSON => print "Non-JSON response:";; print_checked payload;; sys_exit 1
      | LoadFails e => raise e
      end
  end.

Definition device_endpoint_of (keycloak_url realm : string) : string :=
  rstrip "/" keycloak_url +:+ "/realms/" +:+ realm
    +:+ "/protocol/openid-connect/auth/device".

Definition token_endpoint_of (keycloak_url realm : string) : string :=
  rstrip "/" keycloak_url +:+ "/realms/" +:+ realm
    +:+ "/protocol/openid-connect/token".

Definition init_form (client_id client_secret scope : string) : dict :=
  [("client_id", JStr client_id);
   ("client_secret", JStr client_secret);
   ("scope", JStr scope)].

Definition token_form (device_code : json) (client_id client_secret : string) : dict :=
  [("grant_type", JStr "urn:ietf:params:oauth:grant-type:device_code");
   ("device_code", device_code);
   ("client_id", JStr client_id);
   ("client_secret", JStr client_secret)].

Section Poll.
Variables (token_endpoint : string) (device_code : json)
          (client_id client_secret : string)
          (interval expires_in : Z) (start : spec_float).

(** Lines 103-119: what is done with the response of one poll. *)
Definition handle_token_resp (token_resp : json) : M flow :=
  has_error ← lift (py_in "error" token_resp);
  if has_error : bool then
    err ← lift (py_get token_resp "error");
    if eq_str err "authorization_pending" || eq_str err "slow_down" then
      time_sleep interval;; mret Continue
    else
      msg ← or_else (lift (py_get token_resp "error_description")) (mret err);
      eprint (py_str msg);; mret (Done 1)
  else if args_json w then
    print (json_dumps token_resp);; mret (Done 0)
  else
    access_token ← lift (py_get token_resp "access_token");
    if negb (truthy access_token) then
      eprint "No access_token returned";; mret (Done 1)
    else
      print_checked (py_str access_token);; mret (Done 0).

(** Lines 89-119: the body of the loop. *)
Definition poll_once : M flow :=
  now ← time_time w;
  if float_ge_int (float_sub now start) expires_in then
    eprint "Device code expired. Run the script again.";; mret (Done 1)
  else
    token_resp ← post_form token_endpoint
                   (token_form device_code client_id client_secret);
    handle_token_resp token_resp.

(** [while True] *)
Fixpoint poll_loop (fuel : nat) : M Z :=
  match fuel with
  | O => out_of_fuel
  | S fuel' =>
      f ← poll_once;
      match f with
      | Continue => poll_loop fuel'
      | Done code => mret code
      end
  end.
End Poll.

(** Lines 62-119: what is done with the response of the initiation. *)
Definition handle_init_resp (token_endpoint client_id client_secret : string)
    (init_resp : json) (fuel : nat) : M Z :=
  has_error ← lift (py_in "error" init_resp);
  if has_error : bool then
    msg ← or_else (lift (py_get init_resp "error_description"))
                  (lift (py_get init_resp "error"));
    eprint (py_str msg);; mret 1
  else
    device_code ← lift (py_get init_resp "device_code");
    user_code ← lift (py_get init_resp "user_code");
    verification_uri ← or_else (lift (py_get init_resp "verification_uri"))
                               (lift (py_get init_resp "verification_uri_complete"));
    interval ← (v ← lift (py_get_default init_resp "interval" (JInt 5));
                lift (py_int v));
    expires_in ← (v ← lift (py_get_default init_resp "expires_in" (JInt 600));
                  lift (py_int v));
    if negb (truthy device_code) || negb (truthy user_code)
       || negb (truthy verification_uri) then
      eprint "Missing device_code/user_code/verification_uri";;
      print (json_dumps init_resp);;
      mret 1
    else
      print (nl +:+ "Open the following URL and enter the code:");;
      print ("  " +:+ py_str verification_uri);;
      print "Code:";;
      print ("  " +:+ py_str user_code);;
      print (nl +:+ "Device code expires in " +:+ pretty expires_in +:+ "s");;
      input w (nl +:+ "Press ENTER after completing login in the browser...");;
      start ← time_time w;
      poll_loop token_endpoint device_code client_id client_secret
                interval expires_in start fuel.

Definition main (fuel : nat) : M Z :=
  keycloak_url ← require_env "KEYCLOAK_URL";
  realm ← require_env "REALM";
  client_id ← require_env "CLIENT_ID";
  client_secret ← require_env "CLIENT_SECRET";
  let scope := default "openid email profile groups" (environ w !! "SCOPE") in
  let device_endpoint := device_endpoint_of keycloak_url realm in
  let token_endpoint := token_endpoint_of keycloak_url realm in
  init_resp ← post_form device_endpoint (init_form client_id client_secret scope);
  handle_init_resp token_endpoint client_id client_secret init_resp fuel.

(** A run of the script from the start of [main]. *)
Definition run (fuel : nat) : result Z * state := main fuel init_state.
End Script.

(** ** A sample library and sample worlds

    Stand-ins for the library functions of [PyLib], used by the worked
    examples: each agrees with Python on the inputs that occur there.  No
    general theorem depends on them. *)
Module Sample.

Definition dq : string := String "034"%char "".

Fixpoint join (sep : string) (l : list string) : string :=
  match l with
  | [] => ""
  | [s] => s
  | s :: l' => s +:+ sep +:+ join sep l'
  end.

Fixpoint spaces (n : nat) : string :=
  match n with
  | O => ""
  | S n' => " " +:+ spaces n'
  end.

(** [json.dumps(v, indent=2)] for values built from [null], booleans,
    integers, lists, dicts and strings that need no escape; [depth] is
    the nesting level.  No example contains a float. *)
Fixpoint dumps (depth : nat) (v : json) : string :=
  match v with
  | JNull => "null"
  | JBool true => "true"
  | JBool false => "false"
  | JInt n => pretty n
  | JFloat _ => "0.0"
  | JStr s => dq +:+ s +:+ dq
  | JList [] => "[]"
  | JList l =>
      "[" +:+ nl +:+ spaces (2 * S depth)
      +:+ join ("," +:+ nl +:+ spaces (2 * S depth)) (map (dumps (S depth)) l)
      +:+ nl +:+ spaces (2 * depth) +:+ "]"
  | JDict [] => "{}"
  | JDict d =>
      "{" +:+ nl +:+ spaces (2 * S depth)
      +:+ join ("," +:+ nl +:+ spaces (2 * S depth))
            (map (λ kv, dq +:+ fst kv +:+ dq +:+ ": " +:+ dumps (S depth) (snd kv)) d)
      +:+ nl +:+ spaces (2 * depth) +:+ "}"
  end.

(** The JSON documents the sample servers send. *)
Definition init_ok : json :=
  JDict [("device_code", JStr "D1"); ("user_code", JStr "ABCD-EFGH");
         ("verification_uri", JStr "https://auth.example/device");
         ("interval", JInt 5); ("expires_in", JInt 600)].
Definition init_minimal : json :=
  JDict [("device_code", JStr "D1"); ("user_code", JStr "ABCD-EFGH");
         ("verification_uri_complete", JStr "https://auth.example/device?c=ABCD-EFGH")].
Definition init_no_device_code : json :=
  JDict [("user_code", JStr "ABCD-EFGH");
         ("verification_uri", JStr "https://auth.example/device")].
Definition init_null_interval : json :=
  JDict [("user_code", JStr "ABCD-EFGH");
         ("verification_uri", JStr "https://auth.example/device");
         ("interval", JNull)].
Definition init_error : json :=
  JDict [("error", JStr "invalid_scope"); ("error_description", JStr "bad scope")].
Definition pending : json := JDict [("error", JStr "authorization_pending")].
Definition slow_down : json := JDict [("error", JStr "slow_down")].
Definition denied : json :=
  JDict [("error", JStr "access_denied"); ("error_description", JStr "user said no")].
Definition denied_empty_description : json :=
  JDict [("error", JStr "access_denied"); ("error_description", JStr "")].
Definition token_ok : json :=
  JDict [("access_token", JStr "TOK123"); ("token_type", JStr "Bearer")].
Definition token_missing : json := JDict [("token_type", JStr "Bearer")].

Definition documents : list json :=
  [init_ok; init_minimal; init_no_device_code; init_null_interval; init_error;
   pending; slow_down; denied; denied_empty_description; token_ok; token_missing].

(** A parser that knows the documents above, in the layout [dumps]
    gives them, and rejects every other text. *)
Definition loads (payload : string) : option json :=
  find (λ v, String.eqb (dumps 0 v) payload) documents.

(** Well-formed UTF-8 (Unicode, table 3-7): the number of continuation
    bytes a lead byte [b] asks for and the range of the first one. *)
Definition utf8_lead (b : N) : option (nat * N * N) :=
  (if b <? 0x80 then Some (0%nat, 0, 0)
   else if b <? 0xC2 then None
   else if b <? 0xE0 then Some (1%nat, 0x80, 0xBF)
   else if b =? 0xE0 then Some (2%nat, 0xA0, 0xBF)
   else if b =? 0xED then Some (2%nat, 0x80, 0x9F)
   else if b <? 0xF0 then Some (2%nat, 0x80, 0xBF)
   else if b =? 0xF0 then Some (3%nat, 0x90, 0xBF)
   else if b <? 0xF4 then Some (3%nat, 0x80, 0xBF)
   else if b =? 0xF4 then Some (3%nat, 0x80, 0x8F)
   else None)%N.

(** [pending] continuation bytes are still due, the next one within
    [lo..hi]. *)
Fixpoint utf8_valid (pending : nat) (lo hi : N) (raw : list byte) : bool :=
  match raw with
  | [] => match pending with O => true | S _ => false end
  | b :: raw' =>
      let n := Byte.to_N b in
      match pending with
      | O =>
          match utf8_lead n with
          | Some (k, lo', hi') => utf8_valid k lo' hi' raw'
          | None => false
          end
      | S k => ((lo <=? n) && (n <=? hi))%N && utf8_valid k 0x80%N 0xBF%N raw'
      end
  end.

Definition decode (raw : list byte) : option string :=
  if utf8_valid 0 0%N 0%N raw then Some (string_of_list_byte raw) else None.

(** [quote_plus]: letters, digits and [_.-~] stay, a space becomes [+],
    every other byte becomes [%XX]. *)
Definition hex_digit (n : N) : ascii :=
  ascii_of_N (if n <? 10 then 48 + n else 55 + n)%N.

Definition unreserved (n : N) : bool :=
  ((48 <=? n) && (n <=? 57) || (65 <=? n) && (n <=? 90) || (97 <=? n) && (n <=? 122)
   || (n =? 95) || (n =? 46) || (n =? 45) || (n =? 126))%N.

Fixpoint quote_plus (s : string) : string :=
  match s with
  | EmptyString => EmptyString
  | String c s' =>
      let n := N_of_ascii c in
      if unreserved n then String c (quote_plus s')
      else if (n =? 32)%N then String "+"%char (quote_plus s')
      else String "%"%char
             (String (hex_digit (n / 16)%N)
                (String (hex_digit (n mod 16)%N) (quote_plus s')))
  end.

(** [str(v)] as [urlencode] applies it to a field value; [dumps] stands
    in for the [repr] of floats and containers, which no example needs. *)
Definition str (v : json) : string :=
  match v with
  | JNull => "None"
  | JBool true => "True"
  | JBool false => "False"
  | JInt n => pretty n
  | JStr s => s
  | _ => dumps 0 v
  end.

Definition encode (data : dict) : string :=
  join "&" (map (λ kv, quote_plus (fst kv) +:+ "=" +:+ quote_plus (str (snd kv))) data).

(** [int(s)] on a string of decimal digits. *)
Fixpoint digits (acc : Z) (s : string) : option Z :=
  match s with
  | EmptyString => Some acc
  | String c s' =>
      let n := Z.of_N (N_of_ascii c) in
      if (48 <=? n) && (n <=? 57) then digits (10 * acc + (n - 48)) s' else None
  end.

Definition parse_int (s : string) : option Z :=
  match s with
  | EmptyString => None
  | _ => digits 0 s
  end.

Global Instance lib : PyLib := {|
  decode_utf8 := decode;
  json_loads := λ payload,
    match loads payload with Some v => Loaded v | None => NotJSON end;
  stdout_encodable := λ text, utf8_valid 0 0%N 0%N (list_byte_of_string text);
  json_dumps := dumps 0;
  urlencode := encode;
  int_of_str := parse_int;
  py_repr := dumps 0
|}.

(** The body of a response carrying document [v]. *)
Definition body_of (v : json) : http_reply :=
  Body (list_byte_of_string (dumps 0 v)).

(** The [k]-th reply is the [k]-th element of [l]; later calls fail. *)
Definition serve (l : list http_reply) (k : nat) : http_reply :=
  nth k l UrlopenRaises.

(** The float [n], for a small natural number [n] of seconds. *)
Definition seconds (n : Z) : spec_float := binary_normalize 53 1024 n 0 false.

(** The [k]-th clock reading is the [k]-th element of [l]; the clock
    then stays at [last]. *)
Definition readings (l : list Z) (last : Z) (k : nat) : spec_float :=
  seconds (nth k l last).

Definition env : gmap string string :=
  list_to_map [("KEYCLOAK_URL", "https://auth.example/");
               ("REALM", "main");
               ("CLIENT_ID", "cli");
               ("CLIENT_SECRET", "s3cret")].

(** A configured world whose servers send the documents [docs] in turn,
    whose clock shows [times] and then stays at 2000, and whose operator
    presses ENTER. *)
Definition world_of (json_flag : bool) (docs : list json) (times : list Z) : world :=
  World env json_flag (serve (map body_of docs)) (readings times 2000) (Some "").

(** The same, with raw bodies. *)
Definition world_of_bodies (bodies : list (list byte)) : world :=
  World env false (serve (map Body bodies)) (readings [] 2000) (Some "").

Definition device_endpoint : string :=
  "https://auth.example/realms/main/protocol/openid-connect/auth/device".
Definition token_endpoint : string :=
  "https://auth.example/realms/main/protocol/openid-connect/token".
Definition init_body : string :=
  "client_id=cli&client_secret=s3cret&scope=openid+email+profile+groups".
Definition poll_body : string :=
  "grant_type=urn%3Aietf%3Aparams%3Aoauth%3Agrant-type%3Adevice_code"
  +:+ "&device_code=D1&client_id=cli&client_secret=s3cret".

(** What the script shows between the initiation and the first poll,
    for a validity window of [window] seconds. *)
Definition instructions (uri window : string) : list event :=
  [Stdout (nl +:+ "Open the following URL and enter the code:");
   Stdout ("  " +:+ uri);
   Stdout "Code:";
   Stdout "  ABCD-EFGH";
   Stdout (nl +:+ "Device code expires in " +:+ window +:+ "s");
   Prompt (nl +:+ "Press ENTER after completing login in the browser...")].

(** The state in which the poll loop starts after the initiation
    [init_ok], the clock showing 1000. *)
Definition st_polling : state :=
  State (Request device_endpoint init_body
           :: instructions "https://auth.example/device" "600"
           ++ [Clock (seconds 1000)]) 1 1.


(** The token endpoint issues a token at once. *)
Definition w_token : world := world_of false [init_ok; token_ok] [1000; 1002].

(** With [--json], the token endpoint sends a success response that has
    no [access_token]. *)
Definition w_json_no_token : world :=
  world_of true [init_ok; token_missing] [1000; 1002].


(** The process is held up for ten minutes between the reading of the
    start time and the first pass of the loop. *)
Definition w_too_late : world := world_of false [init_ok] [1000; 1600].

(** The token endpoint refuses, with an empty description. *)
Definition w_denied_empty : world :=
  world_of false [init_ok; denied_empty_description] [1000; 1000].

(** The initiation is refused. *)
Definition w_init_error : world := world_of false [init_error] [].

(** The initiation response has no [device_code]. *)
Definition w_no_device_code : world := world_of false [init_no_device_code] [].

(** The initiation response has no [device_code] and a null [interval]. *)
Definition w_null_interval : world := world_of false [init_null_interval] [].

(** The initiation response leaves [interval] and [expires_in] out. *)
Definition w_minimal : world := world_of false [init_minimal] [1000].

(** The device endpoint answers with a page of HTML. *)
Definition w_html : world := world_of_bodies [list_byte_of_string "<html>"].

(** The device endpoint answers with bytes that are not UTF-8. *)
Definition w_not_utf8 : world := world_of_bodies [[Byte.xff; Byte.xfe]].

(** [REALM] is not set. *)
Definition w_no_realm : world :=
  World (delete "REALM" env) false (serve []) (readings [] 2000) (Some "").

End Sample.

(** ** More sample documents and worlds *)
Module Cases.

Definition empty_list : json := JList [].
Definition token_empty : json :=
  JDict [("access_token", JStr ""); ("token_type", JStr "Bearer")].
Definition init_empty_device_code : json :=
  JDict [("device_code", JStr ""); ("user_code", JStr "ABCD-EFGH");
         ("verification_uri", JStr "https://auth.example/device")].
Definition init_both_uris : json :=
  JDict [("device_code", JStr "D1"); ("user_code", JStr "ABCD-EFGH");
         ("verification_uri", JStr "https://auth.example/device");
         ("verification_uri_complete", JStr "https://auth.example/device?c=ABCD-EFGH")].

Definition init_negative_interval : json :=
  JDict [("device_code", JStr "D1"); ("user_code", JStr "ABCD-EFGH");
         ("verification_uri", JStr "https://auth.example/device");
         ("interval", JInt (-1)); ("expires_in", JInt 600)].
Definition number : json := JInt 7.

Definition documents : list json :=
  Sample.documents
  ++ [empty_list; token_empty; init_empty_device_code; init_both_uris;
      init_negative_interval; number].

(** The parser of [Sample], for the longer list of documents. *)
Definition loads (payload : string) : option json :=
  find (λ v, String.eqb (Sample.dumps 0 v) payload) documents.

Definition lib : PyLib := {|
  decode_utf8 := Sample.decode;
  json_loads := λ payload,
    match loads payload with Some v => Loaded v | None => NotJSON end;
  stdout_encodable := λ text, Sample.utf8_valid 0 0%N 0%N (list_byte_of_string text);
  json_dumps := Sample.dumps 0;
  urlencode := Sample.encode;
  int_of_str := Sample.parse_int;
  py_repr := Sample.dumps 0
|}.

(** No server answers. *)
Definition w_unreachable : world := Sample.world_of false [] [].


(** [SCOPE] is set to the empty string. *)
Definition w_empty_scope : world :=
  World (<["SCOPE" := ""]> Sample.env) false
    (Sample.serve [Sample.body_of Sample.init_ok]) (Sample.readings [] 2000) None.

(** The initiation is answered with an empty JSON list. *)
Definition w_list : world := Sample.world_of false [empty_list] [].

(** The token endpoint sends an empty [access_token]. *)
Definition w_token_empty : world :=
  Sample.world_of false [Sample.init_ok; token_empty] [1000; 1002].

(** The initiation response has an empty [device_code]. *)
Definition w_empty_device_code : world := Sample.world_of false [init_empty_device_code] [].


(** The initiation asks for an interval of -1 second and the first poll
    is answered [authorization_pending]. *)
Definition w_negative_interval : world :=
  Sample.world_of false [init_negative_interval; Sample.pending] [1000; 1000].

(** The token endpoint answers with the JSON number 7. *)
Definition w_number : world :=
  Sample.world_of false [Sample.init_ok; number] [1000; 1002].

(** Neither [REALM] nor [CLIENT_SECRET] is set. *)
Definition w_no_realm_no_secret : world :=
  World (delete "CLIENT_SECRET" (delete "REALM" Sample.env)) false
    (Sample.serve []) (Sample.readings [] 2000) (Some "").

(** The token endpoint always says [authorization_pending]; the [k]-th
    reading of the clock is [995 + 5 k] seconds. *)
Definition w_always_pending : world :=
  World Sample.env false
    (λ k, match k with O => Sample.body_of Sample.init_ok | _ => Sample.body_of Sample.pending end)
    (λ k, Sample.seconds (995 + 5 * Z.of_nat k)) (Some "").

End Cases.

(** ** Documents given by their text *)
Module Texts.

(** The lone surrogate U+D800: the bytes ED A0 80. *)
Definition lone_surrogate : string :=
  String "237" (String "160" (String "128" "")).

(** What [json.loads] makes of the text below. *)
Definition token_surrogate : json := JDict [("access_token", JStr lone_surrogate)].

(** A JSON document, all ASCII, whose [access_token] is the escape of
    U+D800. *)
Definition token_surrogate_text : string :=
  "{" +:+ Sample.dq +:+ "access_token" +:+ Sample.dq +:+ ": "
  +:+ Sample.dq +:+ "\ud800" +:+ Sample.dq +:+ "}".

(** The document [Sample.token_ok] on one line, without spaces. *)
Definition token_compact_text : string :=
  "{" +:+ Sample.dq +:+ "access_token" +:+ Sample.dq +:+ ":"
  +:+ Sample.dq +:+ "TOK123" +:+ Sample.dq +:+ ","
  +:+ Sample.dq +:+ "token_type" +:+ Sample.dq +:+ ":"
  +:+ Sample.dq +:+ "Bearer" +:+ Sample.dq +:+ "}".

(** The parser of [Cases], which also knows these two texts. *)
Definition loads (payload : string) : option json :=
  if String.eqb payload token_surrogate_text then Some token_surrogate
  else if String.eqb payload token_compact_text then Some Sample.token_ok
  else Cases.loads payload.

(** The library of [Cases] with this parser; standard output is UTF-8. *)
Definition lib : PyLib := {|
  decode_utf8 := Sample.decode;
  json_loads := λ payload,
    match loads payload with Some v => Loaded v | None => NotJSON end;
  stdout_encodable := λ text, Sample.utf8_valid 0 0%N 0%N (list_byte_of_string text);
  json_dumps := Sample.dumps 0;
  urlencode := Sample.encode;
  int_of_str := Sample.parse_int;
  py_repr := Sample.dumps 0
|}.

(** A configured world in which the initiation succeeds and the first
    poll is answered with the body [text]. *)
Definition world_of_text (json_flag : bool) (text : string) : world :=
  World Sample.env json_flag
    (Sample.serve [Sample.body_of Sample.init_ok; Body (list_byte_of_string text)])
    (Sample.readings [1000; 1002] 2000) (Some "").

(** The token endpoint issues the surrogate token at once. *)
Definition w_token_surrogate : world := world_of_text false token_surrogate_text.

(** With [--json], the token endpoint sends the compact document. *)
Definition w_token_compact_json : world := world_of_text true token_compact_text.

End Texts.

(** ** Vocabulary of the statements *)

(** The state after the events [l], [dr] more requests and [dc] more clock
    reads. *)
Definition after (st : state) (l : list event) (dr dc : nat) : state :=
  State (trace st ++ l) (dr + requests st) (dc + clock_reads st).

Definition is_clock (e : event) : bool :=
  match e with Clock _ => true | _ => false end.

(** Every run of [m] only appends events, all of which satisfy [P]. *)
Definition emits {A} (P : event → Prop) (m : M A) : Prop :=
  ∀ st, ∃ l, trace (m st).2 = trace st ++ l ∧ Forall P l.

(** The value of [d.get(k)]. *)
Definition get (d : dict) (k : string) : json := default JNull (dict_lookup k d).

(** If [e] is a request, it goes to [url]. *)
Definition goes_to (url : string) (e : event) : Prop :=
  match e with
  | Request u _ => u = url
  | _ => True
  end.

(** The verification URI the script shows. *)
Definition shown_uri (d : dict) : json :=
  py_or (get d "verification_uri") (get d "verification_uri_complete").

(** The test of line 74: some required field of the initiation response
    is falsy. *)
Definition incomplete (d : dict) : bool :=
  negb (truthy (get d "device_code")) || negb (truthy (get d "user_code"))
  || negb (truthy (shown_uri d)).

(** The initiation response has no [device_code], no [user_code], or
    neither form of the verification URI. *)
Definition lacks_field (d : dict) : Prop :=
  dict_lookup "device_code" d = None ∨ dict_lookup "user_code" d = None
  ∨ (dict_lookup "verification_uri" d = None
     ∧ dict_lookup "verification_uri_complete" d = None).

(** The error value asks for another poll. *)
Definition transient (err : json) : bool :=
  eq_str err "authorization_pending" || eq_str err "slow_down".

(** What [time.sleep(secs)] raises, if anything. *)
Definition sleep_error (secs : Z) : option exn :=
  if (secs <? - sleep_limit) || (sleep_limit <? secs) then Some OverflowError
  else if secs <? 0 then Some ValueError
  else None.

(** [n] slashes. *)
Fixpoint slashes (n : nat) : string :=
  match n with
  | O => ""
  | S n' => String "/" (slashes n')
  end.

(** [s.endswith(c)] *)
Fixpoint ends_with (c : ascii) (s : string) : bool :=
  match s with
  | EmptyString => false
  | String a EmptyString => Ascii.eqb a c
  | String _ s' => ends_with c s'
  end.

Section Vocabulary.
Context `{PyLib} (w : world).

(** The value of [int(init_resp.get(key, dflt))]. *)
Definition int_field (d : dict) (key : string) (dflt : Z) : exn + Z :=
  py_int (default (JInt dflt) (dict_lookup key d)).

(** The [k]-th [urlopen] call returns a body that decodes as UTF-8 and
    parses to [v]. *)
Definition reply_parses (k : nat) (v : json) : Prop :=
  ∃ raw payload,
    replies w k = Body raw ∧ decode_utf8 raw = Some payload
    ∧ json_loads payload = Loaded v.

(** The same, with the text of the body. *)
Definition reply_text (k : nat) (payload : string) (v : json) : Prop :=
  ∃ raw,
    replies w k = Body raw ∧ decode_utf8 raw = Some payload
    ∧ json_loads payload = Loaded v.

(** [json.loads] reads back from [json.dumps(v, indent=2)] the value [v]. *)
Definition dumps_round_trips (v : json) : Prop :=
  json_loads (json_dumps v) = Loaded v.

(** Two texts are the same JSON value: [json.loads] reads one value, with
    the same keys and the same values, from both. *)
Definition same_value (a b : string) : Prop :=
  ∃ v, json_loads a = Loaded v ∧ json_loads b = Loaded v.

(** Variable [name] is absent from the environment, or empty. *)
Definition missing (name : string) : Prop :=
  environ w !! name = None ∨ environ w !! name = Some "".

(** Variable [name] is set to the non-empty [value]. *)
Definition present (name value : string) : Prop :=
  environ w !! name = Some value ∧ value ≠ "".

(** The four required variables are set. *)
Definition config_ok (keycloak_url realm client_id client_secret : string) : Prop :=
  present "KEYCLOAK_URL" keycloak_url ∧ present "REALM" realm
  ∧ present "CLIENT_ID" client_id ∧ present "CLIENT_SECRET" client_secret.

(** The check at the top of a loop iteration, on the reading [now]. *)
Definition expired (start now : spec_float) (expires_in : Z) : bool :=
  float_ge_int (float_sub now start) expires_in.
End Vocabulary.

(** ** Vocabulary of the further properties *)

Definition is_stdout (e : event) : bool :=
  match e with Stdout _ => true | _ => false end.

Definition is_stderr (e : event) : bool :=
  match e with Stderr _ => true | _ => false end.

Definition is_request (e : event) : bool :=
  match e with Request _ _ => true | _ => false end.

Definition is_sleep (e : event) : bool :=
  match e with Sleep _ => true | _ => false end.

(** What the loop makes of a pass that does not ask for another one. *)
Definition leave (r : result flow) : result Z :=
  match r with
  | Return (Done code) => Return code
  | Return Continue => OutOfFuel
  | SysExit c => SysExit c
  | Raise e => Raise e
  | OutOfFuel => OutOfFuel
  end.

(** The exception a parsed token response that is not an object ends
    in: [in] raises [TypeError] on a number, a boolean and [None]; a
    string and a list have no [get]. *)
Definition not_object_error (v : json) : exn :=
  match v with
  | JStr _ | JList _ => AttributeError
  | _ => TypeError
  end.

(** The statuses the script uses. *)
Definition zero_or_one (r : result Z) : Prop :=
  match r with
  | Return n => n = 0 ∨ n = 1
  | SysExit c => c = 1
  | Raise _ => True
  | OutOfFuel => True
  end.

Section Outcomes.
Context `{PyLib} (w : world).

(** What the script prints between the initiation and the prompt. *)
Definition shown (d : dict) (expires_in : Z) : list event :=
  [Stdout (nl +:+ "Open the following URL and enter the code:");
   Stdout ("  " +:+ py_str (shown_uri d));
   Stdout "Code:";
   Stdout ("  " +:+ py_str (get d "user_code"));
   Stdout (nl +:+ "Device code expires in " +:+ pretty expires_in +:+ "s")].

Definition enter_prompt : event :=
  Prompt (nl +:+ "Press ENTER after completing login in the browser...").

(** The request of the initiation. *)
Definition initiation (keycloak_url realm client_id client_secret : string) : event :=
  Request (device_endpoint_of keycloak_url realm)
    (urlencode (init_form client_id client_secret
       (default "openid email profile groups" (environ w !! "SCOPE")))).

(** The ways a configured run ends before the loop: its result and what
    follows the initiation request in its trace. *)
Inductive early_end : result Z → list event → Prop :=
| end_unreachable :
    replies w 0 = UrlopenRaises →
    early_end (Raise URLError) []
| end_undecodable raw :
    replies w 0 = Body raw → decode_utf8 raw = None →
    early_end (Raise UnicodeDecodeError) []
| end_non_json raw payload :
    replies w 0 = Body raw → decode_utf8 raw = Some payload →
    json_loads payload = NotJSON → stdout_encodable payload = true →
    early_end (SysExit 1) [Stdout "Non-JSON response:"; Stdout payload]
| end_non_json_unprintable raw payload :
    replies w 0 = Body raw → decode_utf8 raw = Some payload →
    json_loads payload = NotJSON → stdout_encodable payload = false →
    early_end (Raise UnicodeEncodeError) [Stdout "Non-JSON response:"]
| end_loads_fails raw payload e :
    replies w 0 = Body raw → decode_utf8 raw = Some payload →
    json_loads payload = LoadFails e →
    early_end (Raise e) []
| end_not_object v e :
    reply_parses w 0 v → (∀ d, v ≠ JDict d) →
    e = TypeError ∨ e = AttributeError →
    early_end (Raise e) []
| end_refused d err :
    reply_parses w 0 (JDict d) → dict_lookup "error" d = Some err →
    early_end (Return 1)
      [Stderr (py_str (py_or (get d "error_description") err))]
| end_bad_number d e :
    reply_parses w 0 (JDict d) → dict_lookup "error" d = None →
    int_field d "interval" 5 = inl e
    ∨ (∃ i, int_field d "interval" 5 = inr i) ∧ int_field d "expires_in" 600 = inl e →
    early_end (Raise e) []
| end_incomplete d i e :
    reply_parses w 0 (JDict d) → dict_lookup "error" d = None →
    int_field d "interval" 5 = inr i → int_field d "expires_in" 600 = inr e →
    incomplete d = true →
    early_end (Return 1)
      [Stderr "Missing device_code/user_code/verification_uri";
       Stdout (json_dumps (JDict d))]
| end_no_operator d i e :
    reply_parses w 0 (JDict d) → dict_lookup "error" d = None →
    int_field d "interval" 5 = inr i → int_field d "expires_in" 600 = inr e →
    incomplete d = false → stdin w = None →
    early_end (Raise EOFError) (shown d e ++ [enter_prompt]).

Section Pass.
Variables (token_endpoint : string) (device_code : json)
          (client_id client_secret : string)
          (interval expires_in : Z) (start : spec_float).

(** The request of a poll. *)
Definition poll : event :=
  Request token_endpoint (urlencode (token_form device_code client_id client_secret)).

(** The events of [k] passes that each end in a sleep, the first of which
    makes the [n]-th reading of the clock. *)
Fixpoint waiting (k n : nat) : list event :=
  match k with
  | O => []
  | S k' => Clock (clock w n) :: poll :: Sleep interval :: waiting k' (S n)
  end.

(** The ways one pass through the loop goes from state [st]: its result,
    the events it adds and the number of requests it makes. *)
Inductive pass (st : state) : result flow → list event → nat → Prop :=
| pass_expired :
    expired start (clock w (clock_reads st)) expires_in = true →
    pass st (Return (Done 1))
      [Clock (clock w (clock_reads st));
       Stderr "Device code expired. Run the script again."] 0
| pass_unreachable :
    expired start (clock w (clock_reads st)) expires_in = false →
    replies w (requests st) = UrlopenRaises →
    pass st (Raise URLError) [Clock (clock w (clock_reads st)); poll] 1
| pass_undecodable raw :
    expired start (clock w (clock_reads st)) expires_in = false →
    replies w (requests st) = Body raw → decode_utf8 raw = None →
    pass st (Raise UnicodeDecodeError) [Clock (clock w (clock_reads st)); poll] 1
| pass_non_json raw payload :
    expired start (clock w (clock_reads st)) expires_in = false →
    replies w (requests st) = Body raw → decode_utf8 raw = Some payload →
    json_loads payload = NotJSON → stdout_encodable payload = true →
    pass st (SysExit 1)
      [Clock (clock w (clock_reads st)); poll;
       Stdout "Non-JSON response:"; Stdout payload] 1
| pass_non_json_unprintable raw payload :
    expired start (clock w (clock_reads st)) expires_in = false →
    replies w (requests st) = Body raw → decode_utf8 raw = Some payload →
    json_loads payload = NotJSON → stdout_encodable payload = false →
    pass st (Raise UnicodeEncodeError)
      [Clock (clock w (clock_reads st)); poll; Stdout "Non-JSON response:"] 1
| pass_loads_fails raw payload e :
    expired start (clock w (clock_reads st)) expires_in = false →
    replies w (requests st) = Body raw → decode_utf8 raw = Some payload →
    json_loads payload = LoadFails e →
    pass st (Raise e) [Clock (clock w (clock_reads st)); poll] 1
| pass_not_container v e :
    expired start (clock w (clock_reads st)) expires_in = false →
    reply_parses w (requests st) v → py_in "error" v = inl e →
    pass st (Raise e) [Clock (clock w (clock_reads st)); poll] 1
| pass_not_object v b :
    expired start (clock w (clock_reads st)) expires_in = false →
    reply_parses w (requests st) v → (∀ d, v ≠ JDict d) →
    py_in "error" v = inr b → b = true ∨ args_json w = false →
    pass st (Raise AttributeError) [Clock (clock w (clock_reads st)); poll] 1
| pass_negative_sleep d err :
    expired start (clock w (clock_reads st)) expires_in = false →
    reply_parses w (requests st) (JDict d) →
    dict_lookup "error" d = Some err → transient err = true →
    - sleep_limit ≤ interval < 0 →
    pass st (Raise ValueError) [Clock (clock w (clock_reads st)); poll] 1
| pass_sleep_overflow d err :
    expired start (clock w (clock_reads st)) expires_in = false →
    reply_parses w (requests st) (JDict d) →
    dict_lookup "error" d = Some err → transient err = true →
    interval < - sleep_limit ∨ sleep_limit < interval →
    pass st (Raise OverflowError) [Clock (clock w (clock_reads st)); poll] 1
| pass_wait d err :
    expired start (clock w (clock_reads st)) expires_in = false →
    reply_parses w (requests st) (JDict d) →
    dict_lookup "error" d = Some err → transient err = true →
    0 ≤ interval ≤ sleep_limit →
    pass st (Return Continue)
      [Clock (clock w (clock_reads st)); poll; Sleep interval] 1
| pass_refused d err :
    expired start (clock w (clock_reads st)) expires_in = false →
    reply_parses w (requests st) (JDict d) →
    dict_lookup "error" d = Some err → transient err = false →
    pass st (Return (Done 1))
      [Clock (clock w (clock_reads st)); poll;
       Stderr (py_str (py_or (get d "error_description") err))] 1
| pass_json v :
    expired start (clock w (clock_reads st)) expires_in = false →
    reply_parses w (requests st) v → py_in "error" v = inr false →
    args_json w = true →
    pass st (Return (Done 0))
      [Clock (clock w (clock_reads st)); poll; Stdout (json_dumps v)] 1
| pass_token d :
    expired start (clock w (clock_reads st)) expires_in = false →
    reply_parses w (requests st) (JDict d) → dict_lookup "error" d = None →
    args_json w = false → truthy (get d "access_token") = true →
    stdout_encodable (py_str (get d "access_token")) = true →
    pass st (Return (Done 0))
      [Clock (clock w (clock_reads st)); poll;
       Stdout (py_str (get d "access_token"))] 1
| pass_token_unprintable d :
    expired start (clock w (clock_reads st)) expires_in = false →
    reply_parses w (requests st) (JDict d) → dict_lookup "error" d = None →
    args_json w = false → truthy (get d "access_token") = true →
    stdout_encodable (py_str (get d "access_token")) = false →
    pass st (Raise UnicodeEncodeError) [Clock (clock w (clock_reads st)); poll] 1
| pass_no_token d :
    expired start (clock w (clock_reads st)) expires_in = false →
    reply_parses w (requests st) (JDict d) → dict_lookup "error" d = None →
    args_json w = false → truthy (get d "access_token") = false →
    pass st (Return (Done 1))
      [Clock (clock w (clock_reads st)); poll;
       Stderr "No access_token returned"] 1.
End Pass.
End Outcomes.

(** ** Stepping through the script *)

Ltac unfold_M :=
  cbv beta iota delta
    [mbind M_bind mret M_ret lift raise sys_exit out_of_fuel print eprint emit after].

(** How [≫=] continues after each kind of result. *)
Lemma bind_Return {A B} (m : M A) (k : A → M B) st a st' :
  m st = (Return a, st') → (m ≫= k) st = k a st'.
Proof. intros E. unfold mbind, M_bind. rewrite E. reflexivity. Qed.

Lemma bind_SysExit {A B} (m : M A) (k : A → M B) st c st' :
  m st = (SysExit c, st') → (m ≫= k) st = (SysExit c, st').
Proof. intros E. unfold mbind, M_bind. rewrite E. reflexivity. Qed.

Lemma bind_Raise {A B} (m : M A) (k : A → M B) st e st' :
  m st = (Raise e, st') → (m ≫= k) st = (Raise e, st').
Proof. intros E. unfold mbind, M_bind. rewrite E. reflexivity. Qed.

Lemma after_after st l1 l2 r1 r2 c1 c2 :
  after (after st l1 r1 c1) l2 r2 c2 = after st (l1 ++ l2) (r2 + r1) (c2 + c1).
Proof.
  unfold after. simpl. rewrite <- app_assoc, !Nat.add_assoc. reflexivity.
Qed.

Lemma after_init l r c : after init_state l r c = State l r c.
Proof. unfold after. simpl. rewrite !Nat.add_0_r. reflexivity. Qed.

Section Steps.
Context `{PyLib} (w : world).

Lemma require_env_present name value st :
  present w name value → require_env w name st = (Return value, st).
Proof.
  intros [Hget Hne]. unfold require_env. rewrite Hget.
  destruct value; [congruence | reflexivity].
Qed.

Lemma require_env_missing name st :
  missing w name →
  require_env w name st
  = (SysExit 1, after st [Stderr (name +:+ " is required")] 0 0).
Proof.
  intros [Hget | Hget]; unfold require_env; rewrite Hget; reflexivity.
Qed.

Lemma missing_or_present name :
  missing w name ∨ ∃ value, present w name value.
Proof.
  unfold missing, present. destruct (environ w !! name) as [[|c s]|].
  - left. right. reflexivity.
  - right. eexists. split; [reflexivity | discriminate].
  - left. left. reflexivity.
Qed.

Lemma post_form_parsed url data v st :
  reply_parses w (requests st) v →
  post_form w url data st
  = (Return v, after st [Request url (urlencode data)] 1 0).
Proof.
  intros (raw & payload & Hreply & Hdec & Hload).
  unfold post_form, urlopen. unfold_M. rewrite Hreply, Hdec, Hload. reflexivity.
Qed.
End Steps.

(** ** What a computation can append to the trace *)

Section Emits.
Context `{PyLib} (w : world) (P : event → Prop).

Lemma emits_ret {A} (a : A) : emits P (mret a : M A).
Proof. intros st. exists []. simpl. rewrite app_nil_r. auto. Qed.

Lemma emits_raise {A} e : emits P (raise e : M A).
Proof. intros st. exists []. simpl. rewrite app_nil_r. auto. Qed.

Lemma emits_sys_exit {A} c : emits P (sys_exit c : M A).
Proof. intros st. exists []. simpl. rewrite app_nil_r. auto. Qed.

Lemma emits_out_of_fuel {A} : emits P (out_of_fuel : M A).
Proof. intros st. exists []. simpl. rewrite app_nil_r. auto. Qed.

Lemma emits_lift {A} (r : exn + A) : emits P (lift r).
Proof. destruct r; [apply emits_raise | apply emits_ret]. Qed.

Lemma emits_bind {A B} (m : M A) (k : A → M B) :
  emits P m → (∀ a, emits P (k a)) → emits P (m ≫= k).
Proof.
  intros Hm Hk st. destruct (Hm st) as (l1 & E1 & F1).
  unfold mbind, M_bind. destruct (m st) as [[a | c | e |] st1]; simpl in E1;
    try solve [exists l1; simpl; auto].
  destruct (Hk a st1) as (l2 & E2 & F2).
  exists (l1 ++ l2). rewrite E2, E1, app_assoc. split; [reflexivity |].
  apply Forall_app; auto.
Qed.

Lemma emits_emit e : P e → emits P (emit e).
Proof. intros He st. exists [e]. simpl. auto. Qed.

Lemma emits_urlopen url body :
  P (Request url body) → emits P (urlopen w url body).
Proof.
  intros He st. exists [Request url body]. unfold urlopen.
  destruct (replies w (requests st)); simpl; auto.
Qed.

Lemma emits_time_time : (∀ t, P (Clock t)) → emits P (time_time w).
Proof. intros He st. eexists [_]. simpl. auto. Qed.

Lemma emits_time_sleep secs : P (Sleep secs) → emits P (time_sleep secs).
Proof.
  intros He. unfold time_sleep.
  destruct ((secs <? - sleep_limit) || (sleep_limit <? secs)); [apply emits_raise |].
  destruct (secs <? 0).
  - apply emits_raise.
  - apply emits_emit, He.
Qed.

Lemma emits_print_checked text : P (Stdout text) → emits P (print_checked text).
Proof.
  intros He. unfold print_checked. destruct (stdout_encodable text).
  - apply emits_emit, He.
  - apply emits_raise.
Qed.

Lemma emits_input prompt : P (Prompt prompt) → emits P (input w prompt).
Proof.
  intros He. unfold input. apply emits_bind; [apply emits_emit, He |].
  intros _. destruct (stdin w); [apply emits_ret | apply emits_raise].
Qed.

Lemma emits_or_else (a b : M json) :
  emits P a → emits P b → emits P (or_else a b).
Proof.
  intros Ha Hb. unfold or_else. apply emits_bind; [exact Ha |].
  intros x. destruct (truthy x); [apply emits_ret | exact Hb].
Qed.

Hypothesis P_stdout : ∀ text, P (Stdout text).
Hypothesis P_stderr : ∀ text, P (Stderr text).

Lemma emits_post_form url data :
  P (Request url (urlencode data)) → emits P (post_form w url data).
Proof.
  intros He. unfold post_form. apply emits_bind; [apply emits_urlopen, He |].
  intros raw. destruct (decode_utf8 raw) as [payload|]; [| apply emits_raise].
  destruct (json_loads payload); [apply emits_ret | | apply emits_raise].
  apply emits_bind; [apply emits_emit, P_stdout | intros _].
  apply emits_bind; [apply emits_print_checked, P_stdout | intros _].
  apply emits_sys_exit.
Qed.

Section Poll.
Variables (token_endpoint : string) (device_code : json)
          (client_id client_secret : string)
          (interval expires_in : Z) (start : spec_float).
Hypothesis P_sleep : P (Sleep interval).

Lemma emits_handle_token_resp token_resp :
  emits P (handle_token_resp w interval token_resp).
Proof.
  unfold handle_token_resp.
  apply emits_bind; [apply emits_lift | intros [|]].
  - apply emits_bind; [apply emits_lift | intros err].
    destruct (_ || _).
    + apply emits_bind; [apply emits_time_sleep, P_sleep | intros _; apply emits_ret].
    + apply emits_bind;
        [apply emits_or_else; [apply emits_lift | apply emits_ret] | intros msg].
      apply emits_bind; [apply emits_emit, P_stderr | intros _; apply emits_ret].
  - destruct (args_json w).
    + apply emits_bind; [apply emits_emit, P_stdout | intros _; apply emits_ret].
    + apply emits_bind; [apply emits_lift | intros tok].
      destruct (negb (truthy tok)).
      * apply emits_bind; [apply emits_emit; auto | intros _; apply emits_ret].
      * apply emits_bind; [apply emits_print_checked; auto | intros _; apply emits_ret].
Qed.

Hypothesis P_clock : ∀ t, P (Clock t).
Hypothesis P_poll :
  P (Request token_endpoint
       (urlencode (token_form device_code client_id client_secret))).

Lemma emits_poll_once :
  emits P (poll_once w token_endpoint device_code client_id client_secret
             interval expires_in start).
Proof.
  unfold poll_once. apply emits_bind; [apply emits_time_time, P_clock | intros now].
  destruct (float_ge_int _ _).
  - apply emits_bind; [apply emits_emit, P_stderr | intros _; apply emits_ret].
  - apply emits_bind; [apply emits_post_form, P_poll |].
    apply emits_handle_token_resp.
Qed.

Lemma emits_poll_loop fuel :
  emits P (poll_loop w token_endpoint device_code client_id client_secret
             interval expires_in start fuel).
Proof.
  induction fuel as [|fuel IH]; simpl.
  - apply emits_out_of_fuel.
  - apply emits_bind; [apply emits_poll_once |].
    intros [|code]; [exact IH | apply emits_ret].
Qed.
End Poll.
End Emits.

Section EmitsMain.
Context `{PyLib} (w : world) (P : event → Prop).
Hypothesis P_stdout : ∀ text, P (Stdout text).
Hypothesis P_stderr : ∀ text, P (Stderr text).
Hypothesis P_prompt : ∀ text, P (Prompt text).
Hypothesis P_clock : ∀ t, P (Clock t).
Hypothesis P_sleep : ∀ secs, P (Sleep secs).

Lemma emits_handle_init_resp token_endpoint client_id client_secret init_resp fuel :
  (∀ body, P (Request token_endpoint body)) →
  emits P (handle_init_resp w token_endpoint client_id client_secret init_resp fuel).
Proof.
  intros P_poll. unfold handle_init_resp.
  apply emits_bind; [apply emits_lift | intros [|]].
  - apply emits_bind; [apply emits_or_else; apply emits_lift | intros msg].
    apply emits_bind; [apply emits_emit, P_stderr | intros _; apply emits_ret].
  - apply emits_bind; [apply emits_lift | intros device_code].
    apply emits_bind; [apply emits_lift | intros user_code].
    apply emits_bind; [apply emits_or_else; apply emits_lift | intros uri].
    apply emits_bind;
      [apply emits_bind; [apply emits_lift | intros v; apply emits_lift] | intros interval].
    apply emits_bind;
      [apply emits_bind; [apply emits_lift | intros v; apply emits_lift] | intros expires_in].
    destruct (_ || _).
    + apply emits_bind; [apply emits_emit, P_stderr | intros _].
      apply emits_bind; [apply emits_emit, P_stdout | intros _; apply emits_ret].
    + do 5 (apply emits_bind; [apply emits_emit, P_stdout | intros _]).
      apply emits_bind; [apply emits_input, P_prompt | intros _].
      apply emits_bind; [apply emits_time_time, P_clock | intros start].
      apply emits_poll_loop; auto.
Qed.
End EmitsMain.

(** ** The branches of the script, one lemma each *)

Section Branches.
Context `{PyLib} (w : world).

Lemma present_not_missing name value :
  present w name value → ¬ missing w name.
Proof. intros [E Hne] [E' | E']; congruence. Qed.

Lemma main_configured u r c s fuel st :
  config_ok w u r c s →
  main w fuel st
  = (post_form w (device_endpoint_of u r)
       (init_form c s (default "openid email profile groups" (environ w !! "SCOPE")))
     ≫= λ init_resp, handle_init_resp w (token_endpoint_of u r) c s init_resp fuel) st.
Proof.
  intros (Hu & Hr & Hc & Hs). unfold main.
  rewrite (bind_Return _ _ _ _ _ (require_env_present w _ _ _ Hu)).
  rewrite (bind_Return _ _ _ _ _ (require_env_present w _ _ _ Hr)).
  rewrite (bind_Return _ _ _ _ _ (require_env_present w _ _ _ Hc)).
  rewrite (bind_Return _ _ _ _ _ (require_env_present w _ _ _ Hs)).
  reflexivity.
Qed.

(** A call of [post_form] starts with its request, whatever follows. *)
Lemma post_form_then {B} (P : event → Prop) url data (k : json → M B) st :
  (∀ text, P (Stdout text)) → (∀ v, emits P (k v)) →
  ∃ rest,
    trace ((post_form w url data ≫= k) st).2
    = trace st ++ Request url (urlencode data) :: rest
    ∧ Forall P rest.
Proof.
  intros P_stdout Hk. unfold post_form, urlopen.
  unfold mbind at 1 2, M_bind at 1 2.
  destruct (replies w (requests st)) as [|raw].
  - exists []. simpl. auto.
  - destruct (decode_utf8 raw) as [payload|]; [| exists []; simpl; auto].
    destruct (json_loads payload) as [v| |e].
    + unfold mret, M_ret.
      destruct (Hk v (State (trace st ++ [Request url (urlencode data)])
                        (S (requests st)) (clock_reads st))) as (l & E & F).
      exists l. rewrite E. simpl. rewrite <- app_assoc. auto.
    + unfold print_checked. destruct (stdout_encodable payload).
      * eexists [_; _]. unfold_M. simpl. rewrite <- !app_assoc. simpl. auto.
      * eexists [_]. unfold_M. simpl. rewrite <- !app_assoc. simpl. auto.
    + exists []. simpl. auto.
Qed.

(** The trace of a configured run: the initiation request, then
    anything but a request to another place than the token endpoint. *)
Lemma run_trace_shape u r c s fuel :
  config_ok w u r c s →
  ∃ rest,
    trace (run w fuel).2
    = Request (device_endpoint_of u r)
        (urlencode (init_form c s
           (default "openid email profile groups" (environ w !! "SCOPE")))) :: rest
    ∧ Forall (goes_to (token_endpoint_of u r)) rest.
Proof.
  intros Hcfg. unfold run. rewrite (main_configured _ _ _ _ _ _ Hcfg).
  apply (post_form_then (goes_to (token_endpoint_of u r))); [easy |].
  intros v. apply emits_handle_init_resp; easy.
Qed.

(** *** The response of the initiation *)

Lemma handle_init_error tok c s d err fuel st :
  dict_lookup "error" d = Some err →
  handle_init_resp w tok c s (JDict d) fuel st
  = (Return 1,
     after st [Stderr (py_str (py_or (get d "error_description") (get d "error")))] 0 0).
Proof.
  intros Herr. unfold handle_init_resp, py_in. rewrite Herr.
  unfold or_else, py_or, py_get, py_get_default. fold (get d "error_description").
  fold (get d "error"). unfold_M.
  destruct (truthy (get d "error_description")); reflexivity.
Qed.

Lemma handle_init_fields tok c s d fuel st :
  dict_lookup "error" d = None →
  handle_init_resp w tok c s (JDict d) fuel st
  = match int_field d "interval" 5 with
    | inl e => (Raise e, st)
    | inr interval =>
        match int_field d "expires_in" 600 with
        | inl e => (Raise e, st)
        | inr expires_in =>
            if incomplete d then
              (Return 1,
               after st [Stderr "Missing device_code/user_code/verification_uri";
                         Stdout (json_dumps (JDict d))] 0 0)
            else
              (input w (nl +:+ "Press ENTER after completing login in the browser...");;
               start ← time_time w;
               poll_loop w tok (get d "device_code") c s interval expires_in start fuel)
                (after st
                   [Stdout (nl +:+ "Open the following URL and enter the code:");
                    Stdout ("  " +:+ py_str (shown_uri d));
                    Stdout "Code:";
                    Stdout ("  " +:+ py_str (get d "user_code"));
                    Stdout (nl +:+ "Device code expires in " +:+ pretty expires_in +:+ "s")]
                   0 0)
        end
    end.
Proof.
  intros Herr. unfold handle_init_resp, py_in. rewrite Herr.
  unfold incomplete, shown_uri, int_field, or_else, py_or, py_get, py_get_default.
  fold (get d "device_code"). fold (get d "user_code").
  fold (get d "verification_uri"). fold (get d "verification_uri_complete").
  unfold_M. simpl.
  destruct (truthy (get d "verification_uri"));
    destruct (py_int (default (JInt 5) (dict_lookup "interval" d))); try reflexivity;
    destruct (py_int (default (JInt 600) (dict_lookup "expires_in" d))); try reflexivity;
    destruct (_ || _); simpl; rewrite <- ?app_assoc; reflexivity.
Qed.
End Branches.

Section PollBranches.
Context `{PyLib} (w : world).
Variables (token_endpoint : string) (device_code : json)
          (client_id client_secret : string)
          (interval expires_in : Z) (start : spec_float).

Local Abbreviation poll_once :=
  (poll_once w token_endpoint device_code client_id client_secret
     interval expires_in start).
Local Abbreviation poll_loop :=
  (poll_loop w token_endpoint device_code client_id client_secret
     interval expires_in start).
Local Abbreviation poll_body :=
  (urlencode (token_form device_code client_id client_secret)).

(** *** The response of a poll *)

Lemma handle_token_transient d e st :
  dict_lookup "error" d = Some (JStr e) →
  e = "authorization_pending" ∨ e = "slow_down" →
  handle_token_resp w interval (JDict d) st
  = if (interval <? - sleep_limit) || (sleep_limit <? interval)
    then (Raise OverflowError, st)
    else if interval <? 0 then (Raise ValueError, st)
    else (Return Continue, after st [Sleep interval] 0 0).
Proof.
  intros Herr He. unfold handle_token_resp, py_in, py_get, py_get_default.
  rewrite Herr. unfold_M. cbn [default from_option id].
  assert (eq_str (JStr e) "authorization_pending" || eq_str (JStr e) "slow_down" = true)
    as -> by (destruct He as [-> | ->]; reflexivity).
  unfold time_sleep.
  destruct ((interval <? - sleep_limit) || (sleep_limit <? interval)); [reflexivity |].
  destruct (interval <? 0); reflexivity.
Qed.

Lemma handle_token_terminal d err st :
  dict_lookup "error" d = Some err →
  eq_str err "authorization_pending" || eq_str err "slow_down" = false →
  handle_token_resp w interval (JDict d) st
  = (Return (Done 1),
     after st [Stderr (py_str (py_or (get d "error_description") err))] 0 0).
Proof.
  intros Herr He. unfold handle_token_resp, py_in, py_get, py_get_default.
  rewrite Herr. fold (get d "error_description").
  unfold_M. cbn [default from_option id]. rewrite He.
  unfold or_else, py_or. unfold_M.
  destruct (truthy (get d "error_description")); reflexivity.
Qed.

Lemma handle_token_json token_resp st :
  py_in "error" token_resp = inr false →
  args_json w = true →
  handle_token_resp w interval token_resp st
  = (Return (Done 0), after st [Stdout (json_dumps token_resp)] 0 0).
Proof.
  intros Hin Hjson. unfold handle_token_resp. rewrite Hin, Hjson. reflexivity.
Qed.

Lemma handle_token_bare d st :
  dict_lookup "error" d = None →
  args_json w = false →
  handle_token_resp w interval (JDict d) st
  = if truthy (get d "access_token")
    then if stdout_encodable (py_str (get d "access_token"))
         then (Return (Done 0), after st [Stdout (py_str (get d "access_token"))] 0 0)
         else (Raise UnicodeEncodeError, st)
    else (Return (Done 1), after st [Stderr "No access_token returned"] 0 0).
Proof.
  intros Herr Hjson. unfold handle_token_resp, py_in, py_get, py_get_default.
  rewrite Herr, Hjson. fold (get d "access_token"). unfold print_checked. unfold_M.
  destruct (truthy (get d "access_token")); [| reflexivity].
  cbn [negb]. destruct (stdout_encodable (py_str (get d "access_token"))); reflexivity.
Qed.

(** *** One pass through the loop *)

Lemma poll_once_expired st :
  expired start (clock w (clock_reads st)) expires_in = true →
  poll_once st
  = (Return (Done 1),
     after st [Clock (clock w (clock_reads st));
               Stderr "Device code expired. Run the script again."] 0 1).
Proof.
  intros Hexp. unfold poll_once, time_time. unfold expired in Hexp.
  unfold_M. rewrite Hexp. simpl. rewrite <- app_assoc. reflexivity.
Qed.

Lemma poll_once_live st :
  expired start (clock w (clock_reads st)) expires_in = false →
  poll_once st
  = (post_form w token_endpoint (token_form device_code client_id client_secret)
     ≫= handle_token_resp w interval)
      (after st [Clock (clock w (clock_reads st))] 0 1).
Proof.
  intros Hexp. unfold poll_once, time_time. unfold expired in Hexp.
  unfold mbind at 1, M_bind at 1. rewrite Hexp. reflexivity.
Qed.

Lemma poll_once_response st v :
  expired start (clock w (clock_reads st)) expires_in = false →
  reply_parses w (requests st) v →
  poll_once st
  = handle_token_resp w interval v
      (after st [Clock (clock w (clock_reads st));
                 Request token_endpoint poll_body] 1 1).
Proof.
  intros Hexp Hrep. rewrite (poll_once_live _ Hexp).
  erewrite bind_Return by (apply post_form_parsed; exact Hrep).
  rewrite after_after. reflexivity.
Qed.

Lemma poll_loop_Done fuel st code st' :
  poll_once st = (Return (Done code), st') →
  poll_loop (S fuel) st = (Return code, st').
Proof. intros E. simpl. rewrite (bind_Return _ _ _ _ _ E). reflexivity. Qed.

Lemma poll_loop_Continue fuel st st' :
  poll_once st = (Return Continue, st') →
  poll_loop (S fuel) st = poll_loop fuel st'.
Proof. intros E. simpl. rewrite (bind_Return _ _ _ _ _ E). reflexivity. Qed.

Lemma poll_loop_Raise fuel st e st' :
  poll_once st = (Raise e, st') →
  poll_loop (S fuel) st = (Raise e, st').
Proof. intros E. simpl. rewrite (bind_Raise _ _ _ _ _ E). reflexivity. Qed.

Lemma sleep_error_cases :
  match sleep_error interval with
  | Some OverflowError => interval < - sleep_limit ∨ sleep_limit < interval
  | Some ValueError => - sleep_limit ≤ interval < 0
  | Some _ => False
  | None => 0 ≤ interval ≤ sleep_limit
  end.
Proof.
  unfold sleep_error.
  destruct (Z.ltb_spec interval (- sleep_limit)); simpl; [lia |].
  destruct (Z.ltb_spec sleep_limit interval); simpl; [lia |].
  destruct (Z.ltb_spec interval 0); lia.
Qed.

Lemma handle_token_transient_sleep d e st :
  dict_lookup "error" d = Some (JStr e) →
  e = "authorization_pending" ∨ e = "slow_down" →
  handle_token_resp w interval (JDict d) st
  = match sleep_error interval with
    | Some x => (Raise x, st)
    | None => (Return Continue, after st [Sleep interval] 0 0)
    end.
Proof.
  intros Herr He. rewrite (handle_token_transient _ _ _ Herr He). unfold sleep_error.
  destruct ((interval <? - sleep_limit) || (sleep_limit <? interval)); [reflexivity |].
  destruct (interval <? 0); reflexivity.
Qed.

(** With an [interval] that [time.sleep] refuses, the first response that
    asks for another poll ends the run with the exception of
    [time.sleep]. *)
Lemma transient_error_bad_interval d e x fuel st :
  expired start (clock w (clock_reads st)) expires_in = false →
  reply_parses w (requests st) (JDict d) →
  dict_lookup "error" d = Some (JStr e) →
  e = "authorization_pending" ∨ e = "slow_down" →
  sleep_error interval = Some x →
  poll_loop (S fuel) st
  = (Raise x,
     after st [Clock (clock w (clock_reads st));
               Request token_endpoint poll_body] 1 1).
Proof.
  intros Hlive Hrep Herr He Hbad. apply poll_loop_Raise.
  rewrite (poll_once_response _ _ Hlive Hrep).
  rewrite (handle_token_transient_sleep _ _ _ Herr He), Hbad. reflexivity.
Qed.

End PollBranches.

(** ** Properties of the script *)

Section PollProperties.
Context `{PyLib} (w : world).
Variables (token_endpoint : string) (device_code : json)
          (client_id client_secret : string)
          (interval expires_in : Z) (start : spec_float).

Local Abbreviation poll_once :=
  (poll_once w token_endpoint device_code client_id client_secret
     interval expires_in start).
Local Abbreviation poll_loop :=
  (poll_loop w token_endpoint device_code client_id client_secret
     interval expires_in start).
Local Abbreviation poll_body :=
  (urlencode (token_form device_code client_id client_secret)).
Local Abbreviation polled st :=
  (after st [Clock (clock w (clock_reads st)); Request token_endpoint poll_body] 1 1).

(** C1, as amended.  A poll that is made (the check at the top of the
    pass did not declare expiry) and whose response has no ["error"] key
    ends the loop.  With [--json] the whole response, as it was parsed, is
    handed to [json.dumps(_, indent=2)], the result is printed and the
    script returns 0; the printed text is the same JSON value as the body
    of the response, with every key and value, when [json.loads] reads
    back what [json.dumps] wrote.  Without [--json], a response whose
    [access_token] is a non-empty string [s] that standard output can
    encode makes the script print exactly [s] and return 0, and a
    response without [access_token] makes it print an error on standard
    error and return 1. *)
Theorem C1_success_response_output
    (payload : string) (token_resp : json) (fuel : nat) (st : state) :
  expired start (clock w (clock_reads st)) expires_in = false →
  reply_text w (requests st) payload token_resp →
  py_in "error" token_resp = inr false →
  (args_json w = true →
     poll_loop (S fuel) st
     = (Return 0, after (polled st) [Stdout (json_dumps token_resp)] 0 0)
     ∧ (dumps_round_trips token_resp → same_value payload (json_dumps token_resp)))
  ∧ (args_json w = false → ∀ d, token_resp = JDict d →
       (∀ s, dict_lookup "access_token" d = Some (JStr s) → s ≠ "" →
          stdout_encodable s = true →
          poll_loop (S fuel) st = (Return 0, after (polled st) [Stdout s] 0 0))
       ∧ (dict_lookup "access_token" d = None →
          poll_loop (S fuel) st
          = (Return 1, after (polled st) [Stderr "No access_token returned"] 0 0))).
Proof.
  intros Hlive (raw & Hreply & Hdec & Hload) Hin.
  assert (reply_parses w (requests st) token_resp) as Hrep by (exists raw, payload; auto).
  split.
  - intros Hjson. split.
    + apply poll_loop_Done.
      rewrite (poll_once_response _ _ _ _ _ _ _ _ _ _ Hlive Hrep).
      apply handle_token_json; assumption.
    + intros Hround. exists token_resp. split; [exact Hload | exact Hround].
  - intros Hjson d ->.
    assert (dict_lookup "error" d = None) as Herr.
    { unfold py_in in Hin. destruct (dict_lookup "error" d); [discriminate | reflexivity]. }
    split.
    + intros s Htok Hne Henc. apply poll_loop_Done.
      rewrite (poll_once_response _ _ _ _ _ _ _ _ _ _ Hlive Hrep).
      rewrite (handle_token_bare _ _ _ _ Herr Hjson).
      unfold get. rewrite Htok. simpl. rewrite Henc.
      destruct s; [congruence | reflexivity].
    + intros Htok. apply poll_loop_Done.
      rewrite (poll_once_response _ _ _ _ _ _ _ _ _ _ Hlive Hrep).
      rewrite (handle_token_bare _ _ _ _ Herr Hjson).
      unfold get. rewrite Htok. reflexivity.
Qed.

(** C10.  With [--json], a response without an ["error"] key is printed
    and the script returns 0 even when it has no [access_token]; the
    same response makes the script return 1 in bare-token mode, the only
    mode in which the field is looked at. *)
Theorem C10_json_mode_skips_token_check (d : dict) (fuel : nat) (st : state) :
  expired start (clock w (clock_reads st)) expires_in = false →
  reply_parses w (requests st) (JDict d) →
  dict_lookup "error" d = None →
  dict_lookup "access_token" d = None →
  poll_loop (S fuel) st
  = if args_json w
    then (Return 0, after (polled st) [Stdout (json_dumps (JDict d))] 0 0)
    else (Return 1, after (polled st) [Stderr "No access_token returned"] 0 0).
Proof.
  intros Hlive Hrep Herr Htok.
  destruct (args_json w) eqn:Hjson; apply poll_loop_Done;
    rewrite (poll_once_response _ _ _ _ _ _ _ _ _ _ Hlive Hrep).
  - apply handle_token_json; [| assumption]. unfold py_in. rewrite Herr. reflexivity.
  - rewrite (handle_token_bare _ _ _ _ Herr Hjson). unfold get. rewrite Htok. reflexivity.
Qed.


(** C3.  Every pass of the loop begins by reading the clock, and reads
    it only then.  When the elapsed time has reached [expires_in] (so, in
    particular, when it exceeds it), the script prints the expiration
    message on standard error and returns 1, and the pass sends no
    request.  Otherwise the pass consists of the poll and the handling of
    its response, and these do not depend on the clock: expiry is
    declared at the top of a pass or not at all. *)
Theorem C3_expiry_checked_at_top_of_pass (st : state) :
  let now := clock w (clock_reads st) in
  (∃ rest, trace (poll_once st).2 = trace st ++ Clock now :: rest
           ∧ Forall (λ e, is_clock e = false) rest)
  ∧ (float_gt_int (float_sub now start) expires_in = true →
       expired start now expires_in = true)
  ∧ (expired start now expires_in = true →
       ∀ fuel,
         poll_loop (S fuel) st
         = (Return 1,
            after st [Clock now;
                      Stderr "Device code expired. Run the script again."] 0 1))
  ∧ (expired start now expires_in = false →
       poll_once st
       = (post_form w token_endpoint (token_form device_code client_id client_secret)
          ≫= handle_token_resp w interval) (after st [Clock now] 0 1)
       ∧ ∀ clock',
           let w' := World (environ w) (args_json w) (replies w) clock' (stdin w) in
           post_form w' token_endpoint (token_form device_code client_id client_secret)
             ≫= handle_token_resp w' interval
           = post_form w token_endpoint (token_form device_code client_id client_secret)
               ≫= handle_token_resp w interval).
Proof.
  intros now. subst now. split; [| split; [| split]].
  - destruct (expired start (clock w (clock_reads st)) expires_in) eqn:Hexp.
    + rewrite (poll_once_expired _ _ _ _ _ _ _ _ _ Hexp).
      eexists [_]. simpl. split; [reflexivity | repeat constructor].
    + rewrite (poll_once_live _ _ _ _ _ _ _ _ _ Hexp).
      destruct (post_form_then w (λ e, is_clock e = false) token_endpoint
                  (token_form device_code client_id client_secret)
                  (handle_token_resp w interval)
                  (after st [Clock (clock w (clock_reads st))] 0 1))
        as (rest & E & F).
      * easy.
      * intros v. apply emits_handle_token_resp; easy.
      * exists (Request token_endpoint poll_body :: rest). rewrite E. simpl.
        rewrite <- !app_assoc. split; [reflexivity | constructor; auto].
  - unfold expired, float_gt_int, float_ge_int.
    destruct (float_compare_int _ _) as [[| |]|]; congruence.
  - intros Hexp fuel. apply poll_loop_Done, poll_once_expired, Hexp.
  - intros Hlive. split.
    + apply poll_once_live, Hlive.
    + intros clock' w'. reflexivity.
Qed.
End PollProperties.

Section RunProperties.
Context `{PyLib} (w : world).

Lemma rstrip_slashes (s : string) :
  ∃ n, s = rstrip "/" s +:+ slashes n ∧ ends_with "/" (rstrip "/" s) = false.
Proof.
  induction s as [|a s (n & E & F)]; simpl.
  - exists 0%nat. auto.
  - destruct (rstrip "/" s) as [|b t] eqn:R.
    + change ("" +:+ slashes n) with (slashes n) in E.
      destruct (Ascii.eqb_spec a "/") as [-> | Hne].
      * exists (S n). change ("" +:+ slashes (S n)) with (String "/" (slashes n)).
        rewrite <- E. auto.
      * exists n.
        change (String a "" +:+ slashes n) with (String a (slashes n)).
        rewrite <- E. split; [reflexivity |]. simpl.
        apply Ascii.eqb_neq, Hne.
    + exists n. split; [| exact F].
      change (String a (String b t) +:+ slashes n)
        with (String a (String b t +:+ slashes n)).
      rewrite <- E. reflexivity.
Qed.

(** C5.  When one of [KEYCLOAK_URL], [REALM], [CLIENT_ID] and
    [CLIENT_SECRET] is absent or empty, the script prints
    ["<name> is required"] on standard error for one such name and exits
    with status 1, and that message is the whole trace: no request was
    made.  When the four are set and [SCOPE] is not, the scope sent with
    the initiation request is ["openid email profile groups"]. *)
Theorem C5_configuration_is_checked_first (fuel : nat) :
  (missing w "KEYCLOAK_URL" ∨ missing w "REALM"
   ∨ missing w "CLIENT_ID" ∨ missing w "CLIENT_SECRET" →
     ∃ name,
       In name ["KEYCLOAK_URL"; "REALM"; "CLIENT_ID"; "CLIENT_SECRET"]
       ∧ missing w name
       ∧ run w fuel = (SysExit 1, State [Stderr (name +:+ " is required")] 0 0)
       ∧ exit_status (run w fuel).1 = Some 1)
  ∧ (∀ u r c s,
       config_ok w u r c s → environ w !! "SCOPE" = None →
       ∃ rest,
         trace (run w fuel).2
         = Request (device_endpoint_of u r)
             (urlencode (init_form c s "openid email profile groups")) :: rest).
Proof.
  split.
  - intros Hmiss. unfold run, main.
    destruct (missing_or_present w "KEYCLOAK_URL") as [M | [u Pu]].
    { exists "KEYCLOAK_URL". rewrite (bind_SysExit _ _ _ _ _ (require_env_missing w _ _ M)).
      repeat split; simpl; auto 6. }
    rewrite (bind_Return _ _ _ _ _ (require_env_present w _ _ _ Pu)).
    destruct (missing_or_present w "REALM") as [M | [r Pr]].
    { exists "REALM". rewrite (bind_SysExit _ _ _ _ _ (require_env_missing w _ _ M)).
      repeat split; simpl; auto 6. }
    rewrite (bind_Return _ _ _ _ _ (require_env_present w _ _ _ Pr)).
    destruct (missing_or_present w "CLIENT_ID") as [M | [c Pc]].
    { exists "CLIENT_ID". rewrite (bind_SysExit _ _ _ _ _ (require_env_missing w _ _ M)).
      repeat split; simpl; auto 6. }
    rewrite (bind_Return _ _ _ _ _ (require_env_present w _ _ _ Pc)).
    destruct (missing_or_present w "CLIENT_SECRET") as [M | [s Ps]].
    { exists "CLIENT_SECRET". rewrite (bind_SysExit _ _ _ _ _ (require_env_missing w _ _ M)).
      repeat split; simpl; auto 6. }
    exfalso. destruct Hmiss as [M | [M | [M | M]]].
    + exact (present_not_missing w _ _ Pu M).
    + exact (present_not_missing w _ _ Pr M).
    + exact (present_not_missing w _ _ Pc M).
    + exact (present_not_missing w _ _ Ps M).
  - intros u r c s Hcfg Hscope.
    destruct (run_trace_shape w u r c s fuel Hcfg) as (rest & E & _).
    exists rest. rewrite E, Hscope. reflexivity.
Qed.

(** C8.  Whatever [KEYCLOAK_URL] and [REALM] are, the base URL is the
    value of [KEYCLOAK_URL] without its trailing slashes, the device
    endpoint is that base followed by
    ["/realms/{realm}/protocol/openid-connect/auth/device"] and the token
    endpoint is the same base followed by
    ["/realms/{realm}/protocol/openid-connect/token"]; the first request of
    a run goes to the former and all later ones to the latter. *)
Theorem C8_endpoint_urls (keycloak_url realm : string) :
  ∃ base n,
    keycloak_url = base +:+ slashes n
    ∧ ends_with "/" base = false
    ∧ device_endpoint_of keycloak_url realm
      = base +:+ "/realms/" +:+ realm +:+ "/protocol/openid-connect/auth/device"
    ∧ token_endpoint_of keycloak_url realm
      = base +:+ "/realms/" +:+ realm +:+ "/protocol/openid-connect/token"
    ∧ ∀ c s fuel,
        config_ok w keycloak_url realm c s →
        ∃ body rest,
          trace (run w fuel).2
          = Request (base +:+ "/realms/" +:+ realm
                       +:+ "/protocol/openid-connect/auth/device") body :: rest
          ∧ Forall (goes_to (base +:+ "/realms/" +:+ realm
                               +:+ "/protocol/openid-connect/token")) rest.
Proof.
  destruct (rstrip_slashes keycloak_url) as (n & E & F).
  exists (rstrip "/" keycloak_url), n. repeat split; auto.
  intros c s fuel Hcfg.
  destruct (run_trace_shape w keycloak_url realm c s fuel Hcfg) as (rest & Et & Ft).
  eauto.
Qed.

(** C9, as amended.  When [urlopen] returns a response (its status is a
    success: otherwise it raises and the body is not read), the body
    decodes as UTF-8, [json.loads] raises [JSONDecodeError] on the text
    and standard output can encode the text, [post_form] prints
    ["Non-JSON response:"] and the text on standard output and calls
    [sys.exit(1)]: it returns no value, so nothing that follows the call
    in its caller is run, and the process ends with status 1. *)
Theorem C9_non_json_text_is_fatal
    (url : string) (data : dict) (raw : list byte) (payload : string) (st : state) :
  replies w (requests st) = Body raw →
  decode_utf8 raw = Some payload →
  json_loads payload = NotJSON →
  stdout_encodable payload = true →
  let st' := after st [Request url (urlencode data);
                       Stdout "Non-JSON response:"; Stdout payload] 1 0 in
  post_form w url data st = (SysExit 1, st')
  ∧ (∀ (k : json → M Z),
       (post_form w url data ≫= k) st = (SysExit 1, st')
       ∧ exit_status ((post_form w url data ≫= k) st).1 = Some 1).
Proof.
  intros Hreply Hdec Hload Henc st'.
  assert (post_form w url data st = (SysExit 1, st')) as E.
  { unfold post_form, urlopen, print_checked. unfold_M. rewrite Hreply, Hdec, Hload, Henc.
    subst st'. unfold after. simpl. rewrite <- !app_assoc. reflexivity. }
  split; [exact E |]. intros k. rewrite (bind_SysExit _ _ _ _ _ E). auto.
Qed.

(** The other ways [post_form] ends on a body that is text: an exception
    of [json.loads] that is not [JSONDecodeError] goes up, as does the
    [UnicodeEncodeError] of printing a text that standard output cannot
    encode. *)
Lemma post_form_loads_fails
    (url : string) (data : dict) (raw : list byte) (payload : string) (e : exn)
    (st : state) :
  replies w (requests st) = Body raw →
  decode_utf8 raw = Some payload →
  json_loads payload = LoadFails e →
  post_form w url data st = (Raise e, after st [Request url (urlencode data)] 1 0).
Proof.
  intros Hreply Hdec Hload.
  unfold post_form, urlopen. unfold_M. rewrite Hreply, Hdec, Hload. reflexivity.
Qed.

Lemma post_form_text_not_printable
    (url : string) (data : dict) (raw : list byte) (payload : string) (st : state) :
  replies w (requests st) = Body raw →
  decode_utf8 raw = Some payload →
  json_loads payload = NotJSON →
  stdout_encodable payload = false →
  post_form w url data st
  = (Raise UnicodeEncodeError,
     after st [Request url (urlencode data); Stdout "Non-JSON response:"] 1 0).
Proof.
  intros Hreply Hdec Hload Henc.
  unfold post_form, urlopen, print_checked. unfold_M. rewrite Hreply, Hdec, Hload, Henc.
  unfold after. simpl. rewrite <- !app_assoc. reflexivity.
Qed.

Lemma lacks_field_incomplete (d : dict) : lacks_field d → incomplete d = true.
Proof.
  unfold lacks_field, incomplete, shown_uri, py_or, get.
  intros [-> | [-> | [-> ->]]]; simpl.
  - reflexivity.
  - apply orb_true_intro. left. apply orb_true_r.
  - apply orb_true_r.
Qed.

Lemma run_configured u r c s fuel v :
  config_ok w u r c s →
  reply_parses w 0 v →
  run w fuel
  = handle_init_resp w (token_endpoint_of u r) c s v fuel
      (State [Request (device_endpoint_of u r)
                (urlencode (init_form c s
                   (default "openid email profile groups" (environ w !! "SCOPE"))))]
         1 0).
Proof.
  intros Hcfg Hrep. unfold run. rewrite (main_configured _ _ _ _ _ _ _ Hcfg).
  erewrite bind_Return by (apply post_form_parsed; exact Hrep).
  rewrite after_init. reflexivity.
Qed.

(** C4, as amended.  A response with an ["error"] key (at the token
    endpoint: one whose value is neither [authorization_pending] nor
    [slow_down]) makes the script print one line on standard error and
    return 1.  The line is [error_description] when that field is present
    and truthy, and the error value otherwise, that is, when the
    description is absent, null or empty.  At the initiation endpoint the
    run ends there, with the initiation request as its only request. *)
Theorem C4_terminal_error_is_reported (d : dict) (err : json) :
  dict_lookup "error" d = Some err →
  let msg := py_or (get d "error_description") err in
  (dict_lookup "error_description" d = None → msg = err)
  ∧ (truthy (get d "error_description") = true → msg = get d "error_description")
  ∧ (truthy (get d "error_description") = false → msg = err)
  ∧ (∀ u r c s fuel,
       config_ok w u r c s → reply_parses w 0 (JDict d) →
       run w fuel
       = (Return 1,
          State [Request (device_endpoint_of u r)
                   (urlencode (init_form c s
                      (default "openid email profile groups" (environ w !! "SCOPE"))));
                 Stderr (py_str msg)] 1 0))
  ∧ (transient err = false →
     ∀ tok dc cid sec itv exp start fuel st,
       expired start (clock w (clock_reads st)) exp = false →
       reply_parses w (requests st) (JDict d) →
       poll_loop w tok dc cid sec itv exp start (S fuel) st
       = (Return 1,
          after st [Clock (clock w (clock_reads st));
                    Request tok (urlencode (token_form dc cid sec));
                    Stderr (py_str msg)] 1 1)).
Proof.
  intros Herr msg. subst msg. unfold py_or. split; [| split; [| split; [| split]]].
  - intros Hnone. unfold get. rewrite Hnone. reflexivity.
  - intros ->. reflexivity.
  - intros ->. reflexivity.
  - intros u r c s fuel Hcfg Hrep.
    rewrite (run_configured _ _ _ _ _ _ Hcfg Hrep).
    rewrite (handle_init_error _ _ _ _ _ _ _ _ Herr).
    replace (get d "error") with err by (unfold get; rewrite Herr; reflexivity).
    reflexivity.
  - intros Hterm tok dc cid sec itv exp start fuel st Hlive Hrep.
    apply poll_loop_Done.
    rewrite (poll_once_response _ _ _ _ _ _ _ _ _ _ Hlive Hrep).
    rewrite (handle_token_terminal _ _ _ _ _ Herr Hterm).
    rewrite after_after. reflexivity.
Qed.

(** C6, as amended.  When the initiation response has no ["error"] key,
    its [interval] and [expires_in] are absent or values that [int()]
    converts, and it has no [device_code], no [user_code] or neither
    [verification_uri] nor [verification_uri_complete], the script prints
    the diagnostic on standard error and the whole response, as
    [json.dumps(_, indent=2)] renders it, on standard output, and returns
    1; the initiation request is the only request of the run. *)
Theorem C6_incomplete_initiation_is_reported
    (d : dict) (u r c s : string) (i e : Z) (fuel : nat) :
  config_ok w u r c s →
  reply_parses w 0 (JDict d) →
  dict_lookup "error" d = None →
  lacks_field d →
  int_field d "interval" 5 = inr i →
  int_field d "expires_in" 600 = inr e →
  run w fuel
  = (Return 1,
     State [Request (device_endpoint_of u r)
              (urlencode (init_form c s
                 (default "openid email profile groups" (environ w !! "SCOPE"))));
            Stderr "Missing device_code/user_code/verification_uri";
            Stdout (json_dumps (JDict d))] 1 0).
Proof.
  intros Hcfg Hrep Herr Hlacks Hi He.
  rewrite (run_configured _ _ _ _ _ _ Hcfg Hrep).
  rewrite (handle_init_fields _ _ _ _ _ _ _ Herr), Hi, He.
  rewrite (lacks_field_incomplete _ Hlacks). reflexivity.
Qed.

(** C7.  In a run that reaches the poll loop, the loop is entered with
    [interval] 5 when the initiation response has no [interval] field and
    with [expires_in] 600 when it has no [expires_in] field; a field that
    is there contributes the value [int()] gives for it. *)
Theorem C7_interval_and_window_defaults
    (d : dict) (u r c s line : string) (i e : Z) (fuel : nat) :
  config_ok w u r c s →
  reply_parses w 0 (JDict d) →
  dict_lookup "error" d = None →
  incomplete d = false →
  stdin w = Some line →
  match dict_lookup "interval" d with
  | None => i = 5
  | Some v => py_int v = inr i
  end →
  match dict_lookup "expires_in" d with
  | None => e = 600
  | Some v => py_int v = inr e
  end →
  run w fuel
  = poll_loop w (token_endpoint_of u r) (get d "device_code") c s i e (clock w 0) fuel
      (State [Request (device_endpoint_of u r)
                (urlencode (init_form c s
                   (default "openid email profile groups" (environ w !! "SCOPE"))));
              Stdout (nl +:+ "Open the following URL and enter the code:");
              Stdout ("  " +:+ py_str (shown_uri d));
              Stdout "Code:";
              Stdout ("  " +:+ py_str (get d "user_code"));
              Stdout (nl +:+ "Device code expires in " +:+ pretty e +:+ "s");
              Prompt (nl +:+ "Press ENTER after completing login in the browser...");
              Clock (clock w 0)] 1 1).
Proof.
  intros Hcfg Hrep Herr Hcomplete Hline Hi He.
  assert (int_field d "interval" 5 = inr i) as Hi'.
  { unfold int_field. destruct (dict_lookup "interval" d); [exact Hi | subst; reflexivity]. }
  assert (int_field d "expires_in" 600 = inr e) as He'.
  { unfold int_field. destruct (dict_lookup "expires_in" d); [exact He | subst; reflexivity]. }
  rewrite (run_configured _ _ _ _ _ _ Hcfg Hrep).
  rewrite (handle_init_fields _ _ _ _ _ _ _ Herr), Hi', He', Hcomplete.
  unfold input, time_time. unfold_M. rewrite Hline. simpl.
  reflexivity.
Qed.
End RunProperties.

(** ** Worked examples *)

Ltac parses v :=
  exists (list_byte_of_string (Sample.dumps 0 v)), (Sample.dumps 0 v);
  repeat split; vm_compute; reflexivity.

Ltac configured :=
  repeat split; try (vm_compute; reflexivity); discriminate.

Lemma sample_config_ok j docs times :
  config_ok (Sample.world_of j docs times) "https://auth.example/" "main" "cli" "s3cret".
Proof. configured. Qed.

Section TextDocuments.
Local Existing Instance Texts.lib | 0.

(** C1, as stated, fails.  The token endpoint answers the first poll with
    the document whose [access_token] is the escape of the lone surrogate
    U+D800: the token is present and not empty, and [print] raises
    [UnicodeEncodeError] on it.  No token is printed and the process ends
    with a traceback and status 1. *)
Lemma C1_counterexample :
  reply_text Texts.w_token_surrogate 1 Texts.token_surrogate_text Texts.token_surrogate
  ∧ py_in "error" Texts.token_surrogate = inr false
  ∧ args_json Texts.w_token_surrogate = false
  ∧ dict_lookup "access_token" [("access_token", JStr Texts.lone_surrogate)]
    = Some (JStr Texts.lone_surrogate)
  ∧ Texts.lone_surrogate ≠ ""
  ∧ run Texts.w_token_surrogate 3
    = (Raise UnicodeEncodeError,
       State (trace Sample.st_polling
              ++ [Clock (Sample.seconds 1002);
                  Request Sample.token_endpoint Sample.poll_body]) 2 2)
  ∧ exit_status (run Texts.w_token_surrogate 3).1 = Some 1.
Proof.
  split; [exists (list_byte_of_string Texts.token_surrogate_text);
          repeat split; vm_compute; reflexivity |].
  split; [reflexivity |]. split; [reflexivity |]. split; [reflexivity |].
  split; [discriminate |]. split; vm_compute; reflexivity.
Qed.

(** C1 at work.  With [--json] the token endpoint answers the first poll
    with a token response on one line: the script prints it indented, and
    the two texts are the same value.  Without [--json] the token of the
    response is printed alone. *)
Lemma C1_witness :
  (expired (Sample.seconds 1000)
     (clock Texts.w_token_compact_json (clock_reads Sample.st_polling)) 600 = false
   ∧ reply_text Texts.w_token_compact_json (requests Sample.st_polling)
       Texts.token_compact_text Sample.token_ok
   ∧ py_in "error" Sample.token_ok = inr false
   ∧ args_json Texts.w_token_compact_json = true
   ∧ dumps_round_trips Sample.token_ok
   ∧ poll_loop Texts.w_token_compact_json Sample.token_endpoint (JStr "D1") "cli" "s3cret"
       5 600 (Sample.seconds 1000) 1 Sample.st_polling
     = (Return 0,
        State (trace Sample.st_polling
               ++ [Clock (Sample.seconds 1002);
                   Request Sample.token_endpoint Sample.poll_body;
                   Stdout (Sample.dumps 0 Sample.token_ok)]) 2 2)
   ∧ same_value Texts.token_compact_text (Sample.dumps 0 Sample.token_ok))
  ∧ (expired (Sample.seconds 1000)
       (clock Sample.w_token (clock_reads Sample.st_polling)) 600 = false
     ∧ reply_text Sample.w_token (requests Sample.st_polling)
         (Sample.dumps 0 Sample.token_ok) Sample.token_ok
     ∧ args_json Sample.w_token = false
     ∧ stdout_encodable "TOK123" = true
     ∧ poll_loop Sample.w_token Sample.token_endpoint (JStr "D1") "cli" "s3cret" 5 600
         (Sample.seconds 1000) 1 Sample.st_polling
       = (Return 0,
          State (trace Sample.st_polling
                 ++ [Clock (Sample.seconds 1002);
                     Request Sample.token_endpoint Sample.poll_body;
                     Stdout "TOK123"]) 2 2)).
Proof.
  assert (py_in "error" Sample.token_ok = inr false) as H3 by reflexivity.
  split.
  - assert (expired (Sample.seconds 1000)
              (clock Texts.w_token_compact_json (clock_reads Sample.st_polling)) 600
            = false) as H1 by (vm_compute; reflexivity).
    assert (reply_text Texts.w_token_compact_json (requests Sample.st_polling)
              Texts.token_compact_text Sample.token_ok) as H2
      by (exists (list_byte_of_string Texts.token_compact_text);
          repeat split; vm_compute; reflexivity).
    assert (dumps_round_trips Sample.token_ok) as H4 by (vm_compute; reflexivity).
    destruct (C1_success_response_output Texts.w_token_compact_json Sample.token_endpoint
                (JStr "D1") "cli" "s3cret" 5 600 (Sample.seconds 1000) _ Sample.token_ok 0
                Sample.st_polling H1 H2 H3) as [Hjson _].
    destruct (Hjson eq_refl) as [Hloop Hsame].
    split; [exact H1 | split; [exact H2 | split; [exact H3 |]]].
    split; [reflexivity | split; [exact H4 | split; [| exact (Hsame H4)]]].
    rewrite Hloop. vm_compute. reflexivity.
  - assert (expired (Sample.seconds 1000)
              (clock Sample.w_token (clock_reads Sample.st_polling)) 600 = false) as H1
      by (vm_compute; reflexivity).
    assert (reply_text Sample.w_token (requests Sample.st_polling)
              (Sample.dumps 0 Sample.token_ok) Sample.token_ok) as H2
      by (exists (list_byte_of_string (Sample.dumps 0 Sample.token_ok));
          repeat split; vm_compute; reflexivity).
    assert (stdout_encodable "TOK123" = true) as H4 by (vm_compute; reflexivity).
    split; [exact H1 | split; [exact H2 | split; [reflexivity | split; [exact H4 |]]]].
    destruct (C1_success_response_output Sample.w_token Sample.token_endpoint (JStr "D1")
                "cli" "s3cret" 5 600 (Sample.seconds 1000) _ Sample.token_ok 0
                Sample.st_polling H1 H2 H3) as [_ Hbare].
    destruct (Hbare eq_refl _ eq_refl) as [Hprint _].
    rewrite (Hprint "TOK123" eq_refl ltac:(discriminate) H4).
    vm_compute. reflexivity.
Defined.
End TextDocuments.

(** C10 at work: [--json] and a success response without [access_token]. *)
Lemma C10_witness :
  expired (Sample.seconds 1000)
    (clock Sample.w_json_no_token (clock_reads Sample.st_polling)) 600 = false
  ∧ reply_parses Sample.w_json_no_token (requests Sample.st_polling) Sample.token_missing
  ∧ dict_lookup "error" [("token_type", JStr "Bearer")] = None
  ∧ dict_lookup "access_token" [("token_type", JStr "Bearer")] = None
  ∧ poll_loop Sample.w_json_no_token Sample.token_endpoint (JStr "D1") "cli" "s3cret"
      5 600 (Sample.seconds 1000) 1 Sample.st_polling
    = (Return 0,
       State (trace Sample.st_polling
              ++ [Clock (Sample.seconds 1002);
                  Request Sample.token_endpoint Sample.poll_body;
                  Stdout (Sample.dumps 0 Sample.token_missing)]) 2 2).
Proof.
  assert (expired (Sample.seconds 1000)
            (clock Sample.w_json_no_token (clock_reads Sample.st_polling)) 600 = false)
    as H1 by (vm_compute; reflexivity).
  assert (reply_parses Sample.w_json_no_token (requests Sample.st_polling)
            Sample.token_missing) as H2 by parses Sample.token_missing.
  split; [exact H1 | split; [exact H2 | split; [reflexivity | split; [reflexivity |]]]].
  rewrite (C10_json_mode_skips_token_check Sample.w_json_no_token Sample.token_endpoint
             (JStr "D1") "cli" "s3cret" 5 600 (Sample.seconds 1000)
             [("token_type", JStr "Bearer")] 0 Sample.st_polling H1 H2 eq_refl eq_refl).
  vm_compute. reflexivity.
Defined.



(** C3 at work: the first pass of the loop starts 600 seconds late. *)
Lemma C3_witness :
  expired (Sample.seconds 1000)
    (clock Sample.w_too_late (clock_reads Sample.st_polling)) 600 = true
  ∧ poll_loop Sample.w_too_late Sample.token_endpoint (JStr "D1") "cli" "s3cret"
      5 600 (Sample.seconds 1000) 1 Sample.st_polling
    = (Return 1,
       State (trace Sample.st_polling
              ++ [Clock (Sample.seconds 1600);
                  Stderr "Device code expired. Run the script again."]) 1 2).
Proof.
  assert (expired (Sample.seconds 1000)
            (clock Sample.w_too_late (clock_reads Sample.st_polling)) 600 = true)
    as H1 by (vm_compute; reflexivity).
  split; [exact H1 |].
  destruct (C3_expiry_checked_at_top_of_pass Sample.w_too_late Sample.token_endpoint
              (JStr "D1") "cli" "s3cret" 5 600 (Sample.seconds 1000) Sample.st_polling)
    as (_ & _ & Hexp & _).
  rewrite (Hexp H1 0%nat). vm_compute. reflexivity.
Defined.

(** C4, as stated, fails.  The token endpoint answers with the error
    [access_denied] and an [error_description] that is present and empty:
    the script prints the error value, not the description. *)
Lemma C4_counterexample :
  reply_parses Sample.w_denied_empty 1 Sample.denied_empty_description
  ∧ dict_lookup "error_description"
      [("error", JStr "access_denied"); ("error_description", JStr "")]
    = Some (JStr "")
  ∧ run Sample.w_denied_empty 3
    = (Return 1,
       State (trace Sample.st_polling
              ++ [Clock (Sample.seconds 1000);
                  Request Sample.token_endpoint Sample.poll_body;
                  Stderr "access_denied"]) 2 2).
Proof.
  split; [parses Sample.denied_empty_description |].
  split; [reflexivity | vm_compute; reflexivity].
Qed.

(** C4 at work: the initiation is refused with [invalid_scope]. *)
Lemma C4_witness :
  dict_lookup "error"
    [("error", JStr "invalid_scope"); ("error_description", JStr "bad scope")]
  = Some (JStr "invalid_scope")
  ∧ config_ok Sample.w_init_error "https://auth.example/" "main" "cli" "s3cret"
  ∧ reply_parses Sample.w_init_error 0 Sample.init_error
  ∧ run Sample.w_init_error 3
    = (Return 1,
       State [Request Sample.device_endpoint Sample.init_body; Stderr "bad scope"] 1 0).
Proof.
  assert (reply_parses Sample.w_init_error 0 Sample.init_error) as H2
    by parses Sample.init_error.
  split; [reflexivity | split; [apply sample_config_ok | split; [exact H2 |]]].
  destruct (C4_terminal_error_is_reported Sample.w_init_error
              [("error", JStr "invalid_scope"); ("error_description", JStr "bad scope")]
              (JStr "invalid_scope") eq_refl) as (_ & _ & _ & Hinit & _).
  rewrite (Hinit _ _ _ _ 3%nat (sample_config_ok _ _ _) H2).
  vm_compute. reflexivity.
Defined.

(** C5 at work: [REALM] is not set. *)
Lemma C5_witness :
  missing Sample.w_no_realm "REALM"
  ∧ ∃ name,
      In name ["KEYCLOAK_URL"; "REALM"; "CLIENT_ID"; "CLIENT_SECRET"]
      ∧ missing Sample.w_no_realm name
      ∧ run Sample.w_no_realm 3 = (SysExit 1, State [Stderr (name +:+ " is required")] 0 0)
      ∧ exit_status (run Sample.w_no_realm 3).1 = Some 1.
Proof.
  assert (missing Sample.w_no_realm "REALM") as H1 by (left; vm_compute; reflexivity).
  split; [exact H1 |].
  destruct (C5_configuration_is_checked_first Sample.w_no_realm 3) as [Hmissing _].
  apply Hmissing. right. left. exact H1.
Defined.

(** C6, as stated, fails.  The initiation response has no ["error"] key
    and no [device_code], and its [interval] is null: [int(None)] raises
    [TypeError] at line 71, before the test of line 74, so neither the
    diagnostic nor the response is printed. *)
Lemma C6_counterexample :
  reply_parses Sample.w_null_interval 0 Sample.init_null_interval
  ∧ dict_lookup "error"
      [("user_code", JStr "ABCD-EFGH");
       ("verification_uri", JStr "https://auth.example/device");
       ("interval", JNull)] = None
  ∧ lacks_field
      [("user_code", JStr "ABCD-EFGH");
       ("verification_uri", JStr "https://auth.example/device");
       ("interval", JNull)]
  ∧ run Sample.w_null_interval 3
    = (Raise TypeError, State [Request Sample.device_endpoint Sample.init_body] 1 0).
Proof.
  split; [parses Sample.init_null_interval |].
  split; [reflexivity |].
  split; [left; reflexivity | vm_compute; reflexivity].
Qed.

(** C6 at work: the initiation response has no [device_code]. *)
Lemma C6_witness :
  config_ok Sample.w_no_device_code "https://auth.example/" "main" "cli" "s3cret"
  ∧ reply_parses Sample.w_no_device_code 0 Sample.init_no_device_code
  ∧ lacks_field
      [("user_code", JStr "ABCD-EFGH");
       ("verification_uri", JStr "https://auth.example/device")]
  ∧ run Sample.w_no_device_code 3
    = (Return 1,
       State [Request Sample.device_endpoint Sample.init_body;
              Stderr "Missing device_code/user_code/verification_uri";
              Stdout (Sample.dumps 0 Sample.init_no_device_code)] 1 0).
Proof.
  assert (reply_parses Sample.w_no_device_code 0 Sample.init_no_device_code) as H2
    by parses Sample.init_no_device_code.
  assert (lacks_field
            [("user_code", JStr "ABCD-EFGH");
             ("verification_uri", JStr "https://auth.example/device")]) as H3
    by (left; reflexivity).
  split; [apply sample_config_ok | split; [exact H2 | split; [exact H3 |]]].
  rewrite (C6_incomplete_initiation_is_reported Sample.w_no_device_code _ _ _ _ _ 5 600 3
             (sample_config_ok _ _ _) H2 eq_refl H3 eq_refl eq_refl).
  vm_compute. reflexivity.
Defined.

(** C7 at work: the initiation response has neither [interval] nor
    [expires_in]. *)
Lemma C7_witness :
  config_ok Sample.w_minimal "https://auth.example/" "main" "cli" "s3cret"
  ∧ reply_parses Sample.w_minimal 0 Sample.init_minimal
  ∧ stdin Sample.w_minimal = Some ""
  ∧ run Sample.w_minimal 3
    = poll_loop Sample.w_minimal Sample.token_endpoint (JStr "D1") "cli" "s3cret"
        5 600 (Sample.seconds 1000) 3
        (State (Request Sample.device_endpoint Sample.init_body
                  :: Sample.instructions "https://auth.example/device?c=ABCD-EFGH" "600"
                  ++ [Clock (Sample.seconds 1000)]) 1 1).
Proof.
  assert (reply_parses Sample.w_minimal 0 Sample.init_minimal) as H2
    by parses Sample.init_minimal.
  split; [apply sample_config_ok | split; [exact H2 | split; [reflexivity |]]].
  rewrite (C7_interval_and_window_defaults Sample.w_minimal
             [("device_code", JStr "D1"); ("user_code", JStr "ABCD-EFGH");
              ("verification_uri_complete", JStr "https://auth.example/device?c=ABCD-EFGH")]
             _ _ _ _ "" 5 600 3
             (sample_config_ok _ _ _) H2 eq_refl eq_refl eq_refl eq_refl eq_refl).
  reflexivity.
Defined.

(** C8 at work: the base URL ends with one slash. *)
Lemma C8_witness :
  config_ok Sample.w_token "https://auth.example/" "main" "cli" "s3cret"
  ∧ device_endpoint_of "https://auth.example/" "main" = Sample.device_endpoint
  ∧ token_endpoint_of "https://auth.example/" "main" = Sample.token_endpoint
  ∧ ∃ body rest,
      trace (run Sample.w_token 3).2 = Request Sample.device_endpoint body :: rest
      ∧ Forall (goes_to Sample.token_endpoint) rest.
Proof.
  split; [apply sample_config_ok |].
  destruct (C8_endpoint_urls Sample.w_token "https://auth.example/" "main")
    as (base & n & Hurl & Hbase & Hdev & Htok & Hrun).
  split; [reflexivity | split; [reflexivity |]].
  destruct (Hrun "cli" "s3cret" 3%nat (sample_config_ok _ _ _)) as (body & rest & E & F).
  rewrite <- Hdev in E. rewrite <- Htok in F.
  exists body, rest. split; [exact E | exact F].
Defined.

(** C9, as stated, fails.  The body of the response is the two bytes FF
    FE, which no JSON document starts with and which are not UTF-8:
    [decode] raises [UnicodeDecodeError] at line 28, outside the [try], and
    nothing is printed on standard output. *)
Lemma C9_counterexample :
  replies Sample.w_not_utf8 0 = Body [Byte.xff; Byte.xfe]
  ∧ decode_utf8 [Byte.xff; Byte.xfe] = None
  ∧ post_form Sample.w_not_utf8 Sample.device_endpoint
      (init_form "cli" "s3cret" "openid email profile groups") init_state
    = (Raise UnicodeDecodeError,
       State [Request Sample.device_endpoint Sample.init_body] 1 0)
  ∧ run Sample.w_not_utf8 3
    = (Raise UnicodeDecodeError,
       State [Request Sample.device_endpoint Sample.init_body] 1 0).
Proof. repeat split; vm_compute; reflexivity. Qed.

(** C9 at work: the device endpoint answers with a page of HTML. *)
Lemma C9_witness :
  replies Sample.w_html (requests init_state) = Body (list_byte_of_string "<html>")
  ∧ decode_utf8 (list_byte_of_string "<html>") = Some "<html>"
  ∧ json_loads "<html>" = NotJSON
  ∧ stdout_encodable "<html>" = true
  ∧ post_form Sample.w_html Sample.device_endpoint
      (init_form "cli" "s3cret" "openid email profile groups") init_state
    = (SysExit 1,
       State [Request Sample.device_endpoint Sample.init_body;
              Stdout "Non-JSON response:"; Stdout "<html>"] 1 0).
Proof.
  assert (replies Sample.w_html (requests init_state)
          = Body (list_byte_of_string "<html>")) as H1 by reflexivity.
  assert (decode_utf8 (list_byte_of_string "<html>") = Some "<html>") as H2
    by (vm_compute; reflexivity).
  assert (json_loads "<html>" = NotJSON) as H3 by (vm_compute; reflexivity).
  assert (stdout_encodable "<html>" = true) as H4 by (vm_compute; reflexivity).
  split; [exact H1 | split; [exact H2 | split; [exact H3 | split; [exact H4 |]]]].
  destruct (C9_non_json_text_is_fatal Sample.w_html Sample.device_endpoint
              (init_form "cli" "s3cret" "openid email profile groups") _ _ init_state
              H1 H2 H3 H4) as [Hexit _].
  rewrite Hexit. vm_compute. reflexivity.
Defined.


(** ** Two complete runs *)

(** Two polls are answered [authorization_pending] and the third one with a
    token: the script sleeps 5 seconds after each of the first two, prints
    the bare token and returns 0. *)
Example run_pending_pending_token :
  run (Sample.world_of false
         [Sample.init_ok; Sample.pending; Sample.pending; Sample.token_ok]
         [1000; 1000; 1005; 1010]) 3
  = (Return 0,
     State (trace Sample.st_polling
            ++ [Clock (Sample.seconds 1000);
                Request Sample.token_endpoint Sample.poll_body; Sleep 5;
                Clock (Sample.seconds 1005);
                Request Sample.token_endpoint Sample.poll_body; Sleep 5;
                Clock (Sample.seconds 1010);
                Request Sample.token_endpoint Sample.poll_body;
                Stdout "TOK123"]) 4 4).
Proof. vm_compute. reflexivity. Qed.

(** The same with [--json]: the third response is printed whole. *)
Example run_pending_pending_token_json :
  run (Sample.world_of true
         [Sample.init_ok; Sample.pending; Sample.pending; Sample.token_ok]
         [1000; 1000; 1005; 1010]) 3
  = (Return 0,
     State (trace Sample.st_polling
            ++ [Clock (Sample.seconds 1000);
                Request Sample.token_endpoint Sample.poll_body; Sleep 5;
                Clock (Sample.seconds 1005);
                Request Sample.token_endpoint Sample.poll_body; Sleep 5;
                Clock (Sample.seconds 1010);
                Request Sample.token_endpoint Sample.poll_body;
                Stdout (Sample.dumps 0 Sample.token_ok)]) 4 4).
Proof. vm_compute. reflexivity. Qed.


(** ** Every way through the loop and through a run *)

Section LoopOutcomes.
Context `{PyLib} (w : world).
Variables (token_endpoint : string) (device_code : json)
          (client_id client_secret : string)
          (interval expires_in : Z) (start : spec_float).

Local Abbreviation poll_once :=
  (poll_once w token_endpoint device_code client_id client_secret
     interval expires_in start).
Local Abbreviation poll_loop :=
  (poll_loop w token_endpoint device_code client_id client_secret
     interval expires_in start).
Local Abbreviation pass :=
  (pass w token_endpoint device_code client_id client_secret
     interval expires_in start).
Local Abbreviation poll :=
  (poll token_endpoint device_code client_id client_secret).
Local Abbreviation waiting :=
  (waiting w token_endpoint device_code client_id client_secret interval).

Lemma after_nil (st : state) : after st [] 0 0 = st.
Proof. destruct st. unfold after. simpl. rewrite app_nil_r. reflexivity. Qed.

Lemma transient_inv (err : json) :
  transient err = true →
  ∃ e, err = JStr e ∧ (e = "authorization_pending" ∨ e = "slow_down").
Proof.
  unfold transient. destruct err; simpl; try discriminate.
  intros Ht. apply orb_true_iff in Ht. exists s. split; [reflexivity |].
  destruct Ht as [Ht | Ht]; apply String.eqb_eq in Ht; auto.
Qed.

Lemma py_in_dict (d : dict) (b : bool) :
  py_in "error" (JDict d) = inr b →
  if b then ∃ err, dict_lookup "error" d = Some err
  else dict_lookup "error" d = None.
Proof.
  unfold py_in. destruct (dict_lookup "error" d) as [err|]; intros [= <-]; eauto.
Qed.

(** What is done with a parsed response, case by case. *)
Lemma handle_token_resp_outcome st v :
  expired start (clock w (clock_reads st)) expires_in = false →
  reply_parses w (requests st) v →
  ∃ r l,
    pass st r ([Clock (clock w (clock_reads st)); poll] ++ l) 1
    ∧ ∀ st', handle_token_resp w interval v st' = (r, after st' l 0 0).
Proof.
  intros Hlive Hrep.
  destruct (py_in "error" v) as [e | b] eqn:Hin.
  { exists (Raise e), []. split; [eapply pass_not_container; eauto |].
    intros st'. rewrite after_nil. unfold handle_token_resp. rewrite Hin. reflexivity. }
  assert ((∃ d, v = JDict d) ∨ ∀ d, v ≠ JDict d) as [[d ->] | Hnot]
    by (destruct v; eauto; right; congruence).
  - (* an object *)
    apply py_in_dict in Hin. destruct b.
    + destruct Hin as [err Herr]. destruct (transient err) eqn:Ht.
      * destruct (transient_inv _ Ht) as (e & -> & He).
        pose proof (sleep_error_cases interval) as Hs.
        destruct (sleep_error interval) as [x |] eqn:Hse.
        -- exists (Raise x), []. split.
           ++ destruct x; try contradiction;
                [eapply pass_negative_sleep | eapply pass_sleep_overflow]; eauto.
           ++ intros st'.
              rewrite after_nil, (handle_token_transient_sleep _ _ _ _ _ Herr He), Hse.
              reflexivity.
        -- exists (Return Continue), [Sleep interval].
           split; [eapply pass_wait; eauto |].
           intros st'. rewrite (handle_token_transient_sleep _ _ _ _ _ Herr He), Hse.
           reflexivity.
      * eexists _, [_]. split; [eapply pass_refused; eauto |].
        intros st'. apply handle_token_terminal; assumption.
    + destruct (args_json w) eqn:Hjson.
      * eexists _, [_]. split.
        -- eapply pass_json; eauto. unfold py_in. rewrite Hin. reflexivity.
        -- intros st'. apply handle_token_json; [| assumption].
           unfold py_in. rewrite Hin. reflexivity.
      * destruct (truthy (get d "access_token")) eqn:Htok.
        -- destruct (stdout_encodable (py_str (get d "access_token"))) eqn:Henc.
           ++ eexists _, [_]. split; [eapply pass_token; eauto |].
              intros st'. rewrite (handle_token_bare _ _ _ _ Hin Hjson), Htok, Henc.
              reflexivity.
           ++ exists (Raise UnicodeEncodeError), [].
              split; [eapply pass_token_unprintable; eauto |].
              intros st'. rewrite after_nil, (handle_token_bare _ _ _ _ Hin Hjson), Htok, Henc.
              reflexivity.
        -- eexists _, [_]. split; [eapply pass_no_token; eauto |].
           intros st'. rewrite (handle_token_bare _ _ _ _ Hin Hjson), Htok. reflexivity.
  - (* not an object *)
    destruct b.
    + exists (Raise AttributeError), []. split; [eapply pass_not_object; eauto |].
      intros st'. rewrite after_nil. unfold handle_token_resp. rewrite Hin.
      destruct v; try reflexivity. destruct (Hnot items eq_refl).
    + destruct (args_json w) eqn:Hjson.
      * eexists _, [_]. split; [eapply pass_json; eauto |].
        intros st'. apply handle_token_json; assumption.
      * exists (Raise AttributeError), []. split; [eapply pass_not_object; eauto |].
        intros st'. rewrite after_nil. unfold handle_token_resp. rewrite Hin, Hjson.
        destruct v; try reflexivity. destruct (Hnot items eq_refl).
Qed.

(** One pass through the loop, case by case. *)
Lemma poll_once_outcome st :
  ∃ r l n, pass st r l n ∧ poll_once st = (r, after st l n 1).
Proof.
  destruct (expired start (clock w (clock_reads st)) expires_in) eqn:Hexp.
  { eexists _, _, _. split; [apply pass_expired, Hexp |].
    apply poll_once_expired, Hexp. }
  rewrite (poll_once_live _ _ _ _ _ _ _ _ _ Hexp).
  destruct (replies w (requests st)) as [| raw] eqn:Hreply.
  { eexists _, _, _. split; [apply pass_unreachable; assumption |].
    unfold post_form, urlopen. unfold_M. simpl. rewrite Hreply.
    repeat (rewrite <- app_assoc; simpl). reflexivity. }
  destruct (decode_utf8 raw) as [payload |] eqn:Hdec.
  2:{ eexists _, _, _. split; [eapply pass_undecodable; eassumption |].
      unfold post_form, urlopen. unfold_M. simpl. rewrite Hreply, Hdec.
      repeat (rewrite <- app_assoc; simpl). reflexivity. }
  destruct (json_loads payload) as [v | | x] eqn:Hload.
  2:{ destruct (stdout_encodable payload) eqn:Henc.
      - eexists _, _, _. split; [eapply pass_non_json; eassumption |].
        unfold post_form, urlopen, print_checked. unfold_M. simpl.
        rewrite Hreply, Hdec, Hload, Henc.
        repeat (rewrite <- app_assoc; simpl). reflexivity.
      - eexists _, _, _. split; [eapply pass_non_json_unprintable; eassumption |].
        unfold post_form, urlopen, print_checked. unfold_M. simpl.
        rewrite Hreply, Hdec, Hload, Henc.
        repeat (rewrite <- app_assoc; simpl). reflexivity. }
  2:{ eexists _, _, _. split; [eapply pass_loads_fails; eassumption |].
      unfold post_form, urlopen. unfold_M. simpl. rewrite Hreply, Hdec, Hload.
      repeat (rewrite <- app_assoc; simpl). reflexivity. }
  assert (reply_parses w (requests st) v) as Hrep by (exists raw, payload; auto).
  destruct (handle_token_resp_outcome st v Hexp Hrep) as (r & l & Hpass & Hrun).
  exists r, ([Clock (clock w (clock_reads st)); poll] ++ l), 1%nat.
  split; [exact Hpass |].
  erewrite bind_Return by (apply post_form_parsed; exact Hrep).
  rewrite Hrun, !after_after. reflexivity.
Qed.

Lemma pass_never_out_of_fuel st l n : ¬ pass st OutOfFuel l n.
Proof. intros Hp. inversion Hp. Qed.

(** A pass that leaves the loop sends at most one poll and does not
    sleep. *)
Lemma pass_leaving st r l n :
  pass st r l n → r ≠ Return Continue →
  Forall (λ e, is_sleep e = false) l
  ∧ length (filter (λ e, is_request e = true) l) = n ∧ (n ≤ 1)%nat.
Proof.
  intros Hp Hr. inversion Hp; subst; try congruence;
    (split; [repeat constructor | split; [reflexivity | lia]]).
Qed.

(** The loop is a number of passes that each end in a sleep, followed,
    if the fuel allows, by one pass that leaves it. *)
Lemma poll_loop_unroll fuel st :
  ∃ k, (k ≤ fuel)%nat ∧
    ((k = fuel
      ∧ poll_loop fuel st
        = (OutOfFuel, after st (waiting k (clock_reads st)) k k))
     ∨ ((k < fuel)%nat
        ∧ ∃ r l n,
            pass (after st (waiting k (clock_reads st)) k k) r l n
            ∧ r ≠ Return Continue
            ∧ poll_loop fuel st
              = (leave r,
                 after (after st (waiting k (clock_reads st)) k k) l n 1))).
Proof.
  revert st. induction fuel as [| fuel IH]; intros st.
  - exists 0%nat. split; [lia |]. left. split; [reflexivity |].
    simpl. rewrite after_nil. reflexivity.
  - destruct (poll_once_outcome st) as (r & l & n & Hp & E).
    assert (r = Return Continue ∨ r ≠ Return Continue) as [-> | Hr]
      by (destruct r as [[|c] | | |]; auto; right; congruence).
    + inversion Hp; subst.
      destruct (IH (after st [Clock (clock w (clock_reads st)); poll; Sleep interval] 1 1))
        as (k & Hk & Hcases).
      assert (∀ m, after (after st [Clock (clock w (clock_reads st)); poll; Sleep interval] 1 1)
                     (waiting k (S (clock_reads st))) m m
                   = after st (waiting (S k) (clock_reads st)) (S m) (S m)) as Hst.
      { intros m. rewrite after_after, !Nat.add_1_r. reflexivity. }
      exists (S k). split; [lia |].
      rewrite (poll_loop_Continue _ _ _ _ _ _ _ _ _ _ _ E).
      simpl clock_reads in Hcases. rewrite !Hst in Hcases.
      destruct Hcases as [[-> Hout] | (Hlt & r & l & n & Hp' & Hr' & Hend)].
      * left. split; [reflexivity | exact Hout].
      * right. split; [lia |]. exists r, l, n. auto.
    + exists 0%nat. split; [lia |]. right. split; [lia |].
      exists r, l, n. simpl. rewrite after_nil. split; [exact Hp |]. split; [exact Hr |].
      destruct r as [[| code] | c | e |].
      * congruence.
      * apply poll_loop_Done, E.
      * simpl. rewrite (bind_SysExit _ _ _ _ _ E). reflexivity.
      * apply poll_loop_Raise, E.
      * destruct (pass_never_out_of_fuel _ _ _ Hp).
Qed.
End LoopOutcomes.

Section RunOutcomes.
Context `{PyLib} (w : world).

(** Either a required variable is missing and the run ends at once, or
    the four are set. *)
Lemma config_cases fuel :
  (∃ name,
     In name ["KEYCLOAK_URL"; "REALM"; "CLIENT_ID"; "CLIENT_SECRET"]
     ∧ missing w name
     ∧ run w fuel = (SysExit 1, State [Stderr (name +:+ " is required")] 0 0))
  ∨ ∃ u r c s, config_ok w u r c s.
Proof.
  unfold run, main.
  destruct (missing_or_present w "KEYCLOAK_URL") as [M | [u Pu]].
  { left. exists "KEYCLOAK_URL".
    rewrite (bind_SysExit _ _ _ _ _ (require_env_missing w _ _ M)). simpl. auto. }
  rewrite (bind_Return _ _ _ _ _ (require_env_present w _ _ _ Pu)).
  destruct (missing_or_present w "REALM") as [M | [r Pr]].
  { left. exists "REALM".
    rewrite (bind_SysExit _ _ _ _ _ (require_env_missing w _ _ M)). simpl. auto. }
  rewrite (bind_Return _ _ _ _ _ (require_env_present w _ _ _ Pr)).
  destruct (missing_or_present w "CLIENT_ID") as [M | [c Pc]].
  { left. exists "CLIENT_ID".
    rewrite (bind_SysExit _ _ _ _ _ (require_env_missing w _ _ M)). simpl. auto 6. }
  rewrite (bind_Return _ _ _ _ _ (require_env_present w _ _ _ Pc)).
  destruct (missing_or_present w "CLIENT_SECRET") as [M | [s Ps]].
  { left. exists "CLIENT_SECRET".
    rewrite (bind_SysExit _ _ _ _ _ (require_env_missing w _ _ M)). simpl. auto 7. }
  right. exists u, r, c, s. repeat split; apply Pu || apply Pr || apply Pc || apply Ps.
Qed.

(** What is done with a parsed initiation response, case by case: the
    run ends there, or the loop is entered. *)
Lemma handle_init_resp_outcome tok c s v fuel st :
  reply_parses w 0 v →
  (∃ res l,
     early_end w res l
     ∧ handle_init_resp w tok c s v fuel st = (res, after st l 0 0))
  ∨ (∃ d i e line,
       v = JDict d ∧ dict_lookup "error" d = None
       ∧ int_field d "interval" 5 = inr i ∧ int_field d "expires_in" 600 = inr e
       ∧ incomplete d = false ∧ stdin w = Some line
       ∧ handle_init_resp w tok c s v fuel st
         = poll_loop w tok (get d "device_code") c s i e
             (clock w (clock_reads st)) fuel
             (after st (shown d e ++ [enter_prompt; Clock (clock w (clock_reads st))])
                0 1)).
Proof.
  intros Hrep.
  assert ((∃ d, v = JDict d) ∨ ∀ d, v ≠ JDict d) as [[d ->] | Hnot]
    by (destruct v; eauto; right; congruence).
  - destruct (dict_lookup "error" d) as [err |] eqn:Herr.
    { left. eexists _, _. split; [eapply end_refused; eauto |].
      rewrite (handle_init_error _ _ _ _ _ _ _ _ Herr).
      replace (get d "error") with err by (unfold get; rewrite Herr; reflexivity).
      reflexivity. }
    rewrite (handle_init_fields _ _ _ _ _ _ _ Herr).
    destruct (int_field d "interval" 5) as [x | i] eqn:Hi.
    { left. exists (Raise x), []. split; [eapply end_bad_number; eauto |].
      rewrite after_nil. reflexivity. }
    destruct (int_field d "expires_in" 600) as [x | e] eqn:He.
    { left. exists (Raise x), []. split; [eapply end_bad_number; eauto |].
      rewrite after_nil. reflexivity. }
    destruct (incomplete d) eqn:Hinc.
    { left. eexists _, _. split; [eapply end_incomplete; eauto |]. reflexivity. }
    destruct (stdin w) as [line |] eqn:Hline.
    + right. exists d, i, e, line. repeat split; auto.
      unfold input, time_time. unfold_M. rewrite Hline. simpl.
      unfold shown. repeat (rewrite <- app_assoc; simpl). reflexivity.
    + left. eexists _, _. split; [eapply end_no_operator; eauto |].
      unfold input. unfold_M. rewrite Hline. simpl.
      unfold shown, enter_prompt. repeat (rewrite <- app_assoc; simpl). reflexivity.
  - left. unfold handle_init_resp.
    destruct (py_in "error" v) as [x | b] eqn:Hin.
    + exists (Raise x), []. split.
      * eapply end_not_object; eauto. destruct v; simpl in Hin; inversion Hin; auto.
      * rewrite after_nil. reflexivity.
    + exists (Raise AttributeError), []. split; [eapply end_not_object; eauto |].
      rewrite after_nil.
      destruct v; try discriminate Hin; try (destruct (Hnot items eq_refl));
        destruct b; reflexivity.
Qed.

(** A run, case by case: a required variable is missing; or the run ends
    between the initiation request and the loop; or it is the loop,
    started after the instructions and the prompt. *)
Lemma run_cases fuel :
  (∃ name,
     In name ["KEYCLOAK_URL"; "REALM"; "CLIENT_ID"; "CLIENT_SECRET"]
     ∧ missing w name
     ∧ run w fuel = (SysExit 1, State [Stderr (name +:+ " is required")] 0 0))
  ∨ ∃ u r c s,
      config_ok w u r c s
      ∧ ((∃ res l,
            early_end w res l
            ∧ run w fuel = (res, State (initiation w u r c s :: l) 1 0))
         ∨ (∃ d i e line,
              reply_parses w 0 (JDict d) ∧ dict_lookup "error" d = None
              ∧ int_field d "interval" 5 = inr i
              ∧ int_field d "expires_in" 600 = inr e
              ∧ incomplete d = false ∧ stdin w = Some line
              ∧ run w fuel
                = poll_loop w (token_endpoint_of u r) (get d "device_code") c s i e
                    (clock w 0) fuel
                    (State (initiation w u r c s
                              :: shown d e ++ [enter_prompt; Clock (clock w 0)]) 1 1))).
Proof.
  destruct (config_cases fuel) as [Hmiss | (u & r & c & s & Hcfg)]; [left; exact Hmiss |].
  right. exists u, r, c, s. split; [exact Hcfg |].
  unfold run. rewrite (main_configured w _ _ _ _ _ _ Hcfg).
  destruct (replies w 0) as [| raw] eqn:Hreply.
  { left. exists (Raise URLError), []. split; [apply end_unreachable, Hreply |].
    unfold post_form, urlopen. unfold_M. simpl. rewrite Hreply. reflexivity. }
  destruct (decode_utf8 raw) as [payload |] eqn:Hdec.
  2:{ left. exists (Raise UnicodeDecodeError), [].
      split; [eapply end_undecodable; eassumption |].
      unfold post_form, urlopen. unfold_M. simpl. rewrite Hreply, Hdec. reflexivity. }
  destruct (json_loads payload) as [v | | x] eqn:Hload.
  2:{ left. destruct (stdout_encodable payload) eqn:Henc.
      - eexists _, _. split; [eapply end_non_json; eassumption |].
        unfold post_form, urlopen, print_checked. unfold_M. simpl.
        rewrite Hreply, Hdec, Hload, Henc. reflexivity.
      - eexists _, _. split; [eapply end_non_json_unprintable; eassumption |].
        unfold post_form, urlopen, print_checked. unfold_M. simpl.
        rewrite Hreply, Hdec, Hload, Henc. reflexivity. }
  2:{ left. exists (Raise x), []. split; [eapply end_loads_fails; eassumption |].
      unfold post_form, urlopen. unfold_M. simpl. rewrite Hreply, Hdec, Hload.
      reflexivity. }
  assert (reply_parses w 0 v) as Hrep by (exists raw, payload; auto).
  erewrite bind_Return by (apply (post_form_parsed w _ _ _ init_state); exact Hrep).
  rewrite after_init.
  destruct (handle_init_resp_outcome (token_endpoint_of u r) c s v fuel
              (State [initiation w u r c s] 1 0) Hrep)
    as [(res & l & Hend & E) | (d & i & e & line & -> & Herr & Hi & He & Hinc & Hline & E)].
  - left. exists res, l. split; [exact Hend |]. exact E.
  - right. exists d, i, e, line. repeat split; auto.
Qed.
End RunOutcomes.

(** ** Further properties of the script *)

Lemma rstrip_only_slashes (n : nat) : rstrip "/" (slashes n) = "".
Proof. induction n as [| n IH]; simpl; [| rewrite IH]; reflexivity. Qed.

Lemma rstrip_app_slashes (s : string) (n : nat) :
  rstrip "/" (s +:+ slashes n) = rstrip "/" s.
Proof.
  induction s as [| a s IH].
  - apply rstrip_only_slashes.
  - change (String a s +:+ slashes n) with (String a (s +:+ slashes n)).
    simpl. rewrite IH. reflexivity.
Qed.

Lemma rstrip_fixed (s : string) : ends_with "/" s = false → rstrip "/" s = s.
Proof.
  induction s as [| a s IH]; [reflexivity |]. simpl. destruct s as [| b t].
  - simpl. intros ->. reflexivity.
  - intros Hend. rewrite (IH Hend). reflexivity.
Qed.

Section FurtherProperties.
Context `{PyLib} (w : world).


(** X2.  A [SCOPE] that is set is sent as it is, also when it is empty:
    only an unset [SCOPE] gets the default, unlike the four required
    variables, for which empty counts as missing. *)
Theorem X2_scope_is_sent_as_set (u r c s scope : string) (fuel : nat) :
  config_ok w u r c s →
  environ w !! "SCOPE" = Some scope →
  ∃ rest,
    trace (run w fuel).2
    = Request (device_endpoint_of u r) (urlencode (init_form c s scope)) :: rest.
Proof.
  intros Hcfg Hscope.
  destruct (run_trace_shape w u r c s fuel Hcfg) as (rest & E & _).
  exists rest. rewrite E, Hscope. reflexivity.
Qed.

(** X3.  Trailing slashes of [KEYCLOAK_URL] do not matter: a base URL and
    the same URL followed by any number of slashes give the same two
    endpoints, and a base URL that does not end with a slash is used
    unchanged. *)
Theorem X3_trailing_slashes_are_ignored (u realm : string) (n : nat) :
  device_endpoint_of (u +:+ slashes n) realm = device_endpoint_of u realm
  ∧ token_endpoint_of (u +:+ slashes n) realm = token_endpoint_of u realm
  ∧ (ends_with "/" u = false →
       device_endpoint_of (u +:+ slashes n) realm
       = u +:+ "/realms/" +:+ realm +:+ "/protocol/openid-connect/auth/device"
       ∧ token_endpoint_of (u +:+ slashes n) realm
         = u +:+ "/realms/" +:+ realm +:+ "/protocol/openid-connect/token").
Proof.
  unfold device_endpoint_of, token_endpoint_of. rewrite rstrip_app_slashes.
  split; [reflexivity |]. split; [reflexivity |].
  intros Hend. rewrite (rstrip_fixed _ Hend). split; reflexivity.
Qed.

(** X4.  A request that fails in [urlopen] is not retried and nothing is
    printed about it: at the initiation the run ends with the exception
    after that one request, and in the loop the pass ends the run in the
    same way. *)
Theorem X4_transport_failure_ends_the_run :
  (∀ u r c s fuel,
     config_ok w u r c s → replies w 0 = UrlopenRaises →
     run w fuel = (Raise URLError, State [initiation w u r c s] 1 0)
     ∧ exit_status (run w fuel).1 = Some 1)
  ∧ (∀ tok dc cid sec itv exp start fuel st,
       expired start (clock w (clock_reads st)) exp = false →
       replies w (requests st) = UrlopenRaises →
       poll_loop w tok dc cid sec itv exp start (S fuel) st
       = (Raise URLError,
          after st [Clock (clock w (clock_reads st)); poll tok dc cid sec] 1 1)).
Proof.
  split.
  - intros u r c s fuel Hcfg Hreply.
    assert (run w fuel = (Raise URLError, State [initiation w u r c s] 1 0)) as E.
    { unfold run. rewrite (main_configured w _ _ _ _ _ _ Hcfg).
      unfold post_form, urlopen. unfold_M. simpl. rewrite Hreply. reflexivity. }
    rewrite E. auto.
  - intros tok dc cid sec itv exp start fuel st Hlive Hreply.
    apply poll_loop_Raise. rewrite (poll_once_live _ _ _ _ _ _ _ _ _ Hlive).
    unfold post_form, urlopen. unfold_M. simpl. rewrite Hreply.
    rewrite <- app_assoc. reflexivity.
Qed.


(** X6.  An initiation response that is valid JSON and not an object
    (a list, a string, a number, a boolean, null) ends the run with
    [TypeError] or [AttributeError] before anything is printed. *)
Theorem X6_initiation_response_must_be_an_object
    (v : json) (u r c s : string) (fuel : nat) :
  config_ok w u r c s →
  reply_parses w 0 v →
  (∀ d, v ≠ JDict d) →
  ∃ e, (e = TypeError ∨ e = AttributeError)
       ∧ run w fuel = (Raise e, State [initiation w u r c s] 1 0).
Proof.
  intros Hcfg Hrep Hnot.
  rewrite (run_configured w _ _ _ _ _ _ Hcfg Hrep). unfold handle_init_resp.
  destruct v as [| b | n | x | t | items | d]; try (destruct (Hnot d eq_refl)).
  1-4: exists TypeError; split; [left; reflexivity | reflexivity].
  - exists AttributeError. split; [right; reflexivity |].
    simpl py_in. destruct (String.index 0 "error" t); reflexivity.
  - exists AttributeError. split; [right; reflexivity |].
    simpl py_in. destruct (existsb _ items); reflexivity.
Qed.
End FurtherProperties.

Section LoopProperties.
Context `{PyLib} (w : world).
Variables (token_endpoint : string) (device_code : json)
          (client_id client_secret : string)
          (interval expires_in : Z) (start : spec_float).

Local Abbreviation poll_once :=
  (poll_once w token_endpoint device_code client_id client_secret
     interval expires_in start).
Local Abbreviation poll_loop :=
  (poll_loop w token_endpoint device_code client_id client_secret
     interval expires_in start).
Local Abbreviation pass :=
  (pass w token_endpoint device_code client_id client_secret
     interval expires_in start).
Local Abbreviation poll :=
  (poll token_endpoint device_code client_id client_secret).
Local Abbreviation waiting :=
  (waiting w token_endpoint device_code client_id client_secret interval).

Lemma waiting_quiet k n :
  Forall (λ e, is_stderr e = false ∧ is_stdout e = false) (waiting k n).
Proof.
  revert n. induction k as [| k IH]; intros n; simpl; repeat constructor. apply IH.
Qed.

(** The requests of a pass are polls. *)
Lemma pass_polls st r l n :
  pass st r l n → Forall (λ e, is_request e = true → e = poll) l.
Proof.
  intros Hp. inversion Hp; subst; repeat constructor; try discriminate.
Qed.

Lemma pass_status st r l n : pass st r l n → zero_or_one (leave r).
Proof. intros Hp. inversion Hp; subst; simpl; auto. Qed.

(** X7.  The loop is paced: what it adds to the trace is a number of
    rounds "read the clock, poll, sleep [interval] seconds", followed by a
    last part without a sleep and with at most one request, which is the
    same poll.  So two polls are always separated by a sleep of [interval]
    seconds, every poll sends the same form to the token endpoint, and the
    loop goes on for as long as it is given only if every pass ended in a
    sleep. *)
Theorem X7_loop_is_paced (fuel : nat) (st : state) :
  ∃ k tail,
    trace (poll_loop fuel st).2 = trace st ++ waiting k (clock_reads st) ++ tail
    ∧ Forall (λ e, is_sleep e = false) tail
    ∧ Forall (λ e, is_request e = true → e = poll) tail
    ∧ (length (filter (λ e, is_request e = true) tail) ≤ 1)%nat
    ∧ requests (poll_loop fuel st).2
      = (length (filter (λ e, is_request e = true) tail) + (k + requests st))%nat
    ∧ ((poll_loop fuel st).1 = OutOfFuel → k = fuel ∧ tail = []).
Proof.
  destruct (poll_loop_unroll w token_endpoint device_code client_id client_secret
              interval expires_in start fuel st)
    as (k & Hk & [[-> E] | (Hlt & r & l & n & Hp & Hr & E)]).
  - exists fuel, []. rewrite E. simpl. rewrite app_nil_r.
    split; [reflexivity |]. repeat split; auto.
  - destruct (pass_leaving w _ _ _ _ _ _ _ _ _ _ _ Hp Hr) as (Hsleep & Hlen & Hn).
    exists k, l. rewrite E. simpl. rewrite <- app_assoc, Hlen.
    split; [reflexivity |]. split; [exact Hsleep |].
    split; [exact (pass_polls _ _ _ _ Hp) |]. split; [exact Hn |].
    split; [reflexivity |].
    intros Hout. exfalso. destruct r as [[| code] | c | e |]; simpl in Hout;
      try discriminate; [congruence | exact (pass_never_out_of_fuel w _ _ _ _ _ _ _ _ _ _ Hp)].
Qed.

(** X8.  The loop ends by the first pass whose reading of the clock has
    reached [expires_in]: if that is the pass after [n] others, fuel for
    more than [n] passes is enough for the loop to end, and it has then
    made at most [n] requests. *)
Theorem X8_loop_ends_by_expiry (n fuel : nat) (st : state) :
  expired start (clock w (n + clock_reads st)) expires_in = true →
  (n < fuel)%nat →
  (poll_loop fuel st).1 ≠ OutOfFuel
  ∧ (requests (poll_loop fuel st).2 ≤ n + requests st)%nat.
Proof.
  revert fuel st. induction n as [| n IH]; intros fuel st Hexp Hfuel;
    (destruct fuel as [| fuel]; [lia |]);
    destruct (poll_once_outcome w token_endpoint device_code client_id client_secret
                interval expires_in start st) as (r & l & m & Hp & E).
  - simpl in Hexp. inversion Hp; subst; try congruence.
    rewrite (poll_loop_Done _ _ _ _ _ _ _ _ _ _ _ _ E). simpl. split; [discriminate | lia].
  - assert (r = Return Continue ∨ r ≠ Return Continue) as [-> | Hr]
      by (destruct r as [[| c] | | |]; auto; right; congruence).
    + inversion Hp; subst.
      rewrite (poll_loop_Continue _ _ _ _ _ _ _ _ _ _ _ E).
      destruct (IH fuel (after st [Clock (clock w (clock_reads st)); poll; Sleep interval] 1 1))
        as [Hend Hreq].
      * simpl. rewrite <- Nat.add_succ_comm. exact Hexp.
      * lia.
      * split; [exact Hend |]. simpl in Hreq. lia.
    + destruct (pass_leaving w _ _ _ _ _ _ _ _ _ _ _ Hp Hr) as (_ & _ & Hm).
      destruct r as [[| code] | c | e |].
      * congruence.
      * rewrite (poll_loop_Done _ _ _ _ _ _ _ _ _ _ _ _ E). simpl.
        split; [discriminate | lia].
      * simpl. rewrite (bind_SysExit _ _ _ _ _ E). simpl. split; [discriminate | lia].
      * rewrite (poll_loop_Raise _ _ _ _ _ _ _ _ _ _ _ _ E). simpl.
        split; [discriminate | lia].
      * destruct (pass_never_out_of_fuel w _ _ _ _ _ _ _ _ _ _ Hp).
Qed.
End LoopProperties.

Section RunProperties2.
Context `{PyLib} (w : world).

Lemma early_end_status res l :
  early_end w res l →
  zero_or_one res ∧ res ≠ Return 0 ∧ (res = Return 1 → ∃ text, In (Stderr text) l).
Proof.
  intros Hend. inversion Hend; subst; simpl;
    (split; [auto | split; [discriminate |]]); try discriminate;
    intros _; eexists; simpl; eauto.
Qed.

Lemma shown_quiet d e : Forall (λ ev, is_stderr ev = false) (shown d e).
Proof. unfold shown. repeat constructor. Qed.

(** X9.  From the first [require_env] on (the command line is parsed by
    then), the script itself uses no status but 0 and 1: what [main]
    returns is 0 or 1, and [sys.exit] is only called with 1. *)
Theorem X9_status_is_zero_or_one (fuel : nat) :
  (∀ n st', run w fuel = (Return n, st') → n = 0 ∨ n = 1)
  ∧ (∀ c st', run w fuel = (SysExit c, st') → c = 1).
Proof.
  assert (zero_or_one (run w fuel).1) as Hz.
  { destruct (run_cases w fuel)
      as [(name & _ & _ & E)
         | (u & r & c & s & _ & [(res & l & Hend & E)
                                | (d & i & e & line & _ & _ & _ & _ & _ & _ & E)])].
    - rewrite E. reflexivity.
    - rewrite E. apply (early_end_status _ _ Hend).
    - rewrite E.
      match goal with |- context [poll_loop w ?tok ?dc ?c ?s ?i ?e ?start ?fuel ?st] =>
        destruct (poll_loop_unroll w tok dc c s i e start fuel st)
          as (k & _ & [[_ E'] | (_ & r' & l & n & Hp & _ & E')]) end.
      + rewrite E'. exact I.
      + rewrite E'. exact (pass_status _ _ _ _ _ _ _ _ _ _ _ _ Hp). }
  split; intros x st' E; rewrite E in Hz; exact Hz.
Qed.

(** A pass that ends the loop with 0 printed the response of its poll. *)
Lemma pass_success tok dc c s i e start st l n :
  pass w tok dc c s i e start st (Return (Done 0)) l n →
  ∃ text v,
    l = [Clock (clock w (clock_reads st)); poll tok dc c s; Stdout text]
    ∧ n = 1%nat
    ∧ reply_parses w (requests st) v
    ∧ py_in "error" v = inr false
    ∧ ((args_json w = true ∧ text = json_dumps v)
       ∨ (args_json w = false
          ∧ ∃ d, v = JDict d ∧ truthy (get d "access_token") = true
                 ∧ text = py_str (get d "access_token"))).
Proof.
  intros Hp. inversion Hp as [| | | | | | | | | | | | v Hlive Hrep Hin Hjson
                              | d Hlive Hrep Herr Hjson Htok Henc | |]; subst.
  - exists (json_dumps v), v. repeat split; auto.
  - exists (py_str (get d "access_token")), (JDict d).
    split; [reflexivity |]. split; [reflexivity |]. split; [exact Hrep |].
    split; [unfold py_in; rewrite Herr; reflexivity |].
    right. split; [exact Hjson |]. exists d. auto.
Qed.

(** A pass that ends the loop with 1 wrote on standard error. *)
Lemma pass_failure tok dc c s i e start st l n :
  pass w tok dc c s i e start st (Return (Done 1)) l n →
  ∃ text, In (Stderr text) l.
Proof. intros Hp. inversion Hp; subst; eexists; simpl; eauto. Qed.

(** X10.  Status 0 means a token response was printed: a run that returns
    0 has made the initiation and at least one poll, has made no
    [print] to [sys.stderr] (none of the script's error messages), and
    ends with the line printed for the response of
    its last poll, which has no ["error"] key: the whole response with
    [--json], its truthy [access_token] without. *)
Theorem X10_status_zero_means_token_printed (fuel : nat) (st' : state) :
  run w fuel = (Return 0, st') →
  Forall (λ e, is_stderr e = false) (trace st')
  ∧ (2 ≤ requests st')%nat
  ∧ ∃ pre text v,
      trace st' = pre ++ [Stdout text]
      ∧ reply_parses w (requests st' - 1) v
      ∧ py_in "error" v = inr false
      ∧ ((args_json w = true ∧ text = json_dumps v)
         ∨ (args_json w = false
            ∧ ∃ d, v = JDict d ∧ truthy (get d "access_token") = true
                   ∧ text = py_str (get d "access_token"))).
Proof.
  intros Hrun.
  destruct (run_cases w fuel)
    as [(name & _ & _ & E)
       | (u & r & c & s & _ & [(res & l & Hend & E)
                              | (d & i & e & line & _ & _ & _ & _ & _ & _ & E)])];
    rewrite E in Hrun.
  - discriminate.
  - destruct (early_end_status _ _ Hend) as (_ & Hne & _). congruence.
  - match type of Hrun with context [poll_loop w ?tok ?dc ?c ?s ?i ?e ?start ?fuel ?st] =>
      destruct (poll_loop_unroll w tok dc c s i e start fuel st)
        as (k & _ & [[_ E'] | (_ & r' & l & n & Hp & Hr & E')]) end;
      rewrite E' in Hrun; [discriminate |].
    injection Hrun as Hres <-.
    assert (r' = Return (Done 0)) as ->
      by (destruct r' as [[| code] | | |]; simpl in Hres; congruence).
    destruct (pass_success _ _ _ _ _ _ _ _ _ _ Hp) as (text & v & -> & -> & Hrep & Hin & Htext).
    simpl in Hrep.
    split; [| split].
    + simpl. repeat (constructor; [reflexivity |]). apply Forall_app. split.
      * eapply Forall_impl; [apply waiting_quiet |]. simpl. intros ev [Hev _]. exact Hev.
      * repeat constructor.
    + simpl. lia.
    + exists (initiation w u r c s
              :: shown d e
              ++ enter_prompt :: Clock (clock w 0)
                 :: waiting w (token_endpoint_of u r) (get d "device_code") c s i k 1
                 ++ [Clock (clock w (k + 1));
                     poll (token_endpoint_of u r) (get d "device_code") c s]),
             text, v.
      split; [simpl; rewrite <- app_assoc; reflexivity |].
      split; [| split; [exact Hin | exact Htext]].
      simpl. replace (k + 1 - 0)%nat with (k + 1)%nat by lia. exact Hrep.
Qed.

(** X11.  Status 1 from [main] is never silent: a run that returns 1 has
    written a message on standard error. *)
Theorem X11_failure_is_reported (fuel : nat) (st' : state) :
  run w fuel = (Return 1, st') →
  ∃ text, In (Stderr text) (trace st').
Proof.
  intros Hrun.
  destruct (run_cases w fuel)
    as [(name & _ & _ & E)
       | (u & r & c & s & _ & [(res & l & Hend & E)
                              | (d & i & e & line & _ & _ & _ & _ & _ & _ & E)])];
    rewrite E in Hrun.
  - discriminate.
  - injection Hrun as -> <-.
    destruct (early_end_status _ _ Hend) as (_ & _ & Herr).
    destruct (Herr eq_refl) as (text & Hin). exists text. simpl. auto.
  - match type of Hrun with context [poll_loop w ?tok ?dc ?c ?s ?i ?e ?start ?fuel ?st] =>
      destruct (poll_loop_unroll w tok dc c s i e start fuel st)
        as (k & _ & [[_ E'] | (_ & r' & l & n & Hp & Hr & E')]) end;
      rewrite E' in Hrun; [discriminate |].
    injection Hrun as Hres <-.
    assert (r' = Return (Done 1)) as ->
      by (destruct r' as [[| code] | | |]; simpl in Hres; congruence).
    destruct (pass_failure _ _ _ _ _ _ _ _ _ _ Hp) as (text & Hin).
    exists text. unfold after. cbn [trace]. apply in_or_app. right. exact Hin.
Qed.
End RunProperties2.

Section EdgeProperties.
Context `{PyLib} (w : world).

(** X12.  Without [--json], an [access_token] that is present and falsy
    (an empty string, null, 0, false, an empty list or object) is treated
    like a missing one: the script prints ["No access_token returned"] on
    standard error and returns 1. *)
Theorem X12_falsy_token_counts_as_missing
    (tok : string) (dc : json) (cid sec : string) (itv exp : Z) (start : spec_float)
    (d : dict) (fuel : nat) (st : state) :
  expired start (clock w (clock_reads st)) exp = false →
  reply_parses w (requests st) (JDict d) →
  dict_lookup "error" d = None →
  args_json w = false →
  truthy (get d "access_token") = false →
  poll_loop w tok dc cid sec itv exp start (S fuel) st
  = (Return 1,
     after st [Clock (clock w (clock_reads st)); poll tok dc cid sec;
               Stderr "No access_token returned"] 1 1).
Proof.
  intros Hlive Hrep Herr Hjson Htok. apply poll_loop_Done.
  rewrite (poll_once_response _ _ _ _ _ _ _ _ _ _ Hlive Hrep).
  rewrite (handle_token_bare _ _ _ _ Herr Hjson), Htok, after_after. reflexivity.
Qed.

(** X13.  In the initiation response a [device_code], a [user_code] or a
    verification URI that is present and falsy counts as missing: the
    script prints the diagnostic and the response and returns 1 without
    showing instructions or polling. *)
Theorem X13_falsy_required_field_counts_as_missing
    (d : dict) (u r c s : string) (i e : Z) (fuel : nat) :
  config_ok w u r c s →
  reply_parses w 0 (JDict d) →
  dict_lookup "error" d = None →
  int_field d "interval" 5 = inr i →
  int_field d "expires_in" 600 = inr e →
  truthy (get d "device_code") = false ∨ truthy (get d "user_code") = false
  ∨ (truthy (get d "verification_uri") = false
     ∧ truthy (get d "verification_uri_complete") = false) →
  run w fuel
  = (Return 1,
     State [initiation w u r c s;
            Stderr "Missing device_code/user_code/verification_uri";
            Stdout (json_dumps (JDict d))] 1 0).
Proof.
  intros Hcfg Hrep Herr Hi He Hfalsy.
  assert (incomplete d = true) as Hinc.
  { unfold incomplete, shown_uri, py_or.
    destruct Hfalsy as [-> | [-> | [Hu Hc]]].
    - reflexivity.
    - apply orb_true_intro. left. apply orb_true_r.
    - rewrite Hu, Hc. apply orb_true_r. }
  rewrite (run_configured w _ _ _ _ _ _ Hcfg Hrep).
  rewrite (handle_init_fields _ _ _ _ _ _ _ Herr), Hi, He, Hinc. reflexivity.
Qed.

End EdgeProperties.

Section MoreEdgeProperties.
Context `{PyLib} (w : world).

(** X15.  A response of the token endpoint that is valid JSON and not an
    object ends the run with an exception and without output, unless it is
    a string or a list that does not contain ["error"] and [--json] is
    set: a number, a boolean or null gives [TypeError], a string or a list
    [AttributeError]. *)
Theorem X15_token_response_not_an_object
    (tok : string) (dc : json) (cid sec : string) (itv exp : Z) (start : spec_float)
    (v : json) (fuel : nat) (st : state) :
  expired start (clock w (clock_reads st)) exp = false →
  reply_parses w (requests st) v →
  (∀ d, v ≠ JDict d) →
  args_json w = false ∨ py_in "error" v ≠ inr false →
  poll_loop w tok dc cid sec itv exp start (S fuel) st
  = (Raise (not_object_error v),
     after st [Clock (clock w (clock_reads st)); poll tok dc cid sec] 1 1).
Proof.
  intros Hlive Hrep Hnot Hmode.
  assert (∀ e, handle_token_resp w itv v
                 (after st [Clock (clock w (clock_reads st)); poll tok dc cid sec] 1 1)
               = (Raise e, after st [Clock (clock w (clock_reads st)); poll tok dc cid sec] 1 1) →
               poll_loop w tok dc cid sec itv exp start (S fuel) st
               = (Raise e, after st [Clock (clock w (clock_reads st)); poll tok dc cid sec] 1 1))
    as Hloop.
  { intros e E. apply poll_loop_Raise.
    rewrite (poll_once_response _ _ _ _ _ _ _ _ _ _ Hlive Hrep). exact E. }
  unfold handle_token_resp in Hloop.
  destruct v as [| b | n | x | t | items | d]; try (destruct (Hnot d eq_refl)).
  1-4: apply Hloop; reflexivity.
  - apply Hloop.
    simpl py_in in *. destruct (String.index 0 "error" t); [reflexivity |].
    destruct Hmode as [-> | Hne]; [reflexivity | congruence].
  - apply Hloop.
    simpl py_in in *. destruct (existsb _ items); [reflexivity |].
    destruct Hmode as [-> | Hne]; [reflexivity | congruence].
Qed.

(** X16.  The interval of the initiation response is not checked: with a
    negative one, the first response that asks for another poll ends the
    run with the exception of [time.sleep], after the instructions, one
    poll and no sleep.  The exception is [ValueError] down to
    [- sleep_limit] = -9223372036 seconds and [OverflowError] below. *)
Theorem X16_negative_interval_ends_the_run
    (d p : dict) (u r c s line err : string) (i e : Z) (fuel : nat) :
  config_ok w u r c s →
  reply_parses w 0 (JDict d) →
  dict_lookup "error" d = None →
  int_field d "interval" 5 = inr i →
  int_field d "expires_in" 600 = inr e →
  incomplete d = false →
  stdin w = Some line →
  i < 0 →
  expired (clock w 0) (clock w 1) e = false →
  reply_parses w 1 (JDict p) →
  dict_lookup "error" p = Some (JStr err) →
  err = "authorization_pending" ∨ err = "slow_down" →
  run w (S fuel)
  = (Raise (if i <? - sleep_limit then OverflowError else ValueError),
     State (initiation w u r c s
            :: shown d e
            ++ [enter_prompt; Clock (clock w 0); Clock (clock w 1);
                poll (token_endpoint_of u r) (get d "device_code") c s]) 2 2).
Proof.
  intros Hcfg Hrep Herr Hi He Hinc Hline Hneg Hlive Hrep1 Hperr Hp.
  rewrite (run_configured w _ _ _ _ _ _ Hcfg Hrep).
  rewrite (handle_init_fields _ _ _ _ _ _ _ Herr), Hi, He, Hinc.
  unfold input, time_time. unfold_M. rewrite Hline. cbn [requests clock_reads trace].
  assert (sleep_error i = Some (if i <? - sleep_limit then OverflowError else ValueError))
    as Hs.
  { unfold sleep_error.
    destruct (Z.ltb_spec i (- sleep_limit)); [reflexivity |].
    destruct (Z.ltb_spec sleep_limit i); [unfold sleep_limit in *; lia |].
    destruct (Z.ltb_spec i 0); [reflexivity | lia]. }
  erewrite transient_error_bad_interval; eauto.
Qed.

(** X17.  The required variables are checked in the order [KEYCLOAK_URL],
    [REALM], [CLIENT_ID], [CLIENT_SECRET], and the run ends at the first
    one that is missing: only that one is named, whatever the later ones
    are. *)
Theorem X17_first_missing_variable_is_named (fuel : nat) :
  (missing w "KEYCLOAK_URL" →
     run w fuel = (SysExit 1, State [Stderr "KEYCLOAK_URL is required"] 0 0))
  ∧ (∀ u, present w "KEYCLOAK_URL" u → missing w "REALM" →
       run w fuel = (SysExit 1, State [Stderr "REALM is required"] 0 0))
  ∧ (∀ u r, present w "KEYCLOAK_URL" u → present w "REALM" r →
       missing w "CLIENT_ID" →
       run w fuel = (SysExit 1, State [Stderr "CLIENT_ID is required"] 0 0))
  ∧ (∀ u r c, present w "KEYCLOAK_URL" u → present w "REALM" r →
       present w "CLIENT_ID" c → missing w "CLIENT_SECRET" →
       run w fuel = (SysExit 1, State [Stderr "CLIENT_SECRET is required"] 0 0)).
Proof.
  unfold run, main. split; [| split; [| split]].
  - intros M. rewrite (bind_SysExit _ _ _ _ _ (require_env_missing w _ _ M)). reflexivity.
  - intros u Pu M.
    rewrite (bind_Return _ _ _ _ _ (require_env_present w _ _ _ Pu)).
    rewrite (bind_SysExit _ _ _ _ _ (require_env_missing w _ _ M)). reflexivity.
  - intros u r Pu Pr M.
    rewrite (bind_Return _ _ _ _ _ (require_env_present w _ _ _ Pu)).
    rewrite (bind_Return _ _ _ _ _ (require_env_present w _ _ _ Pr)).
    rewrite (bind_SysExit _ _ _ _ _ (require_env_missing w _ _ M)). reflexivity.
  - intros u r c Pu Pr Pc M.
    rewrite (bind_Return _ _ _ _ _ (require_env_present w _ _ _ Pu)).
    rewrite (bind_Return _ _ _ _ _ (require_env_present w _ _ _ Pr)).
    rewrite (bind_Return _ _ _ _ _ (require_env_present w _ _ _ Pc)).
    rewrite (bind_SysExit _ _ _ _ _ (require_env_missing w _ _ M)). reflexivity.
Qed.
End MoreEdgeProperties.

(** ** Further worked examples *)

(** X2 at work: [SCOPE] is set to the empty string. *)
Lemma X2_witness :
  config_ok Cases.w_empty_scope "https://auth.example/" "main" "cli" "s3cret"
  ∧ environ Cases.w_empty_scope !! "SCOPE" = Some ""
  ∧ ∃ rest,
      trace (run Cases.w_empty_scope 3).2
      = Request Sample.device_endpoint (urlencode (init_form "cli" "s3cret" "")) :: rest.
Proof.
  assert (config_ok Cases.w_empty_scope "https://auth.example/" "main" "cli" "s3cret")
    as H1 by configured.
  assert (environ Cases.w_empty_scope !! "SCOPE" = Some "") as H2
    by (vm_compute; reflexivity).
  split; [exact H1 | split; [exact H2 |]].
  exact (X2_scope_is_sent_as_set Cases.w_empty_scope _ _ _ _ "" 3 H1 H2).
Defined.

(** X3 at work: two slashes after a base URL that has none. *)
Lemma X3_witness :
  ends_with "/" "https://auth.example" = false
  ∧ device_endpoint_of ("https://auth.example" +:+ slashes 2) "main"
    = "https://auth.example" +:+ "/realms/" +:+ "main"
      +:+ "/protocol/openid-connect/auth/device".
Proof.
  assert (ends_with "/" "https://auth.example" = false) as H1 by reflexivity.
  split; [exact H1 |].
  destruct (X3_trailing_slashes_are_ignored "https://auth.example" "main" 2)
    as (_ & _ & Hbase).
  exact (proj1 (Hbase H1)).
Defined.

(** X4 at work: the device endpoint cannot be reached. *)
Lemma X4_witness :
  config_ok Cases.w_unreachable "https://auth.example/" "main" "cli" "s3cret"
  ∧ replies Cases.w_unreachable 0 = UrlopenRaises
  ∧ run Cases.w_unreachable 3
    = (Raise URLError, State [Request Sample.device_endpoint Sample.init_body] 1 0).
Proof.
  assert (replies Cases.w_unreachable 0 = UrlopenRaises) as H2 by reflexivity.
  split; [apply sample_config_ok | split; [exact H2 |]].
  destruct (X4_transport_failure_ends_the_run Cases.w_unreachable) as [Hinit _].
  destruct (Hinit _ _ _ _ 3%nat (sample_config_ok _ _ _) H2) as [E _].
  rewrite E. vm_compute. reflexivity.
Defined.


(** X8 at work: the token endpoint always says [authorization_pending];
    the 121st pass reads the clock 600 seconds after the start. *)
Lemma X8_witness :
  expired (Sample.seconds 1000)
    (clock Cases.w_always_pending (120 + clock_reads Sample.st_polling)) 600 = true
  ∧ (120 < 121)%nat
  ∧ (poll_loop Cases.w_always_pending Sample.token_endpoint (JStr "D1") "cli" "s3cret"
       5 600 (Sample.seconds 1000) 121 Sample.st_polling).1 ≠ OutOfFuel
  ∧ (requests
       (poll_loop Cases.w_always_pending Sample.token_endpoint (JStr "D1") "cli" "s3cret"
          5 600 (Sample.seconds 1000) 121 Sample.st_polling).2
     ≤ 120 + requests Sample.st_polling)%nat.
Proof.
  assert (expired (Sample.seconds 1000)
            (clock Cases.w_always_pending (120 + clock_reads Sample.st_polling)) 600
          = true) as H1 by (vm_compute; reflexivity).
  assert (120 < 121)%nat as H2 by lia.
  split; [exact H1 | split; [exact H2 |]].
  exact (X8_loop_ends_by_expiry Cases.w_always_pending Sample.token_endpoint (JStr "D1")
           "cli" "s3cret" 5 600 (Sample.seconds 1000) 120 121 Sample.st_polling H1 H2).
Defined.

(** X9 at work: the initiation is refused, and [main] returns 1. *)
Lemma X9_witness :
  run Sample.w_init_error 3
  = (Return 1,
     State [Request Sample.device_endpoint Sample.init_body; Stderr "bad scope"] 1 0)
  ∧ (1 = 0 ∨ 1 = 1).
Proof.
  assert (run Sample.w_init_error 3
          = (Return 1,
             State [Request Sample.device_endpoint Sample.init_body; Stderr "bad scope"]
               1 0)) as H1 by (vm_compute; reflexivity).
  split; [exact H1 |].
  exact (proj1 (X9_status_is_zero_or_one Sample.w_init_error 3) 1 _ H1).
Defined.

(** X10 at work: the first poll is answered with a token. *)
Lemma X10_witness :
  run Sample.w_token 3
  = (Return 0,
     State (trace Sample.st_polling
            ++ [Clock (Sample.seconds 1002);
                Request Sample.token_endpoint Sample.poll_body;
                Stdout "TOK123"]) 2 2)
  ∧ Forall (λ e, is_stderr e = false)
      (trace Sample.st_polling
       ++ [Clock (Sample.seconds 1002);
           Request Sample.token_endpoint Sample.poll_body;
           Stdout "TOK123"]).
Proof.
  assert (run Sample.w_token 3
          = (Return 0,
             State (trace Sample.st_polling
                    ++ [Clock (Sample.seconds 1002);
                        Request Sample.token_endpoint Sample.poll_body;
                        Stdout "TOK123"]) 2 2)) as H1 by (vm_compute; reflexivity).
  split; [exact H1 |].
  exact (proj1 (X10_status_zero_means_token_printed Sample.w_token 3 _ H1)).
Defined.

(** X11 at work: the initiation is refused. *)
Lemma X11_witness :
  run Sample.w_init_error 3
  = (Return 1,
     State [Request Sample.device_endpoint Sample.init_body; Stderr "bad scope"] 1 0)
  ∧ ∃ text,
      In (Stderr text)
        [Request Sample.device_endpoint Sample.init_body; Stderr "bad scope"].
Proof.
  assert (run Sample.w_init_error 3
          = (Return 1,
             State [Request Sample.device_endpoint Sample.init_body;
                    Stderr "bad scope"] 1 0)) as H1 by (vm_compute; reflexivity).
  split; [exact H1 |].
  exact (X11_failure_is_reported Sample.w_init_error 3 _ H1).
Defined.

Section MoreDocuments.
Local Existing Instance Cases.lib | 0.

(** X6 at work: the device endpoint answers with an empty JSON list. *)
Lemma X6_witness :
  config_ok Cases.w_list "https://auth.example/" "main" "cli" "s3cret"
  ∧ reply_parses Cases.w_list 0 Cases.empty_list
  ∧ ∃ e, (e = TypeError ∨ e = AttributeError)
         ∧ run Cases.w_list 3
           = (Raise e,
              State [initiation Cases.w_list "https://auth.example/" "main" "cli" "s3cret"]
                1 0).
Proof.
  assert (reply_parses Cases.w_list 0 Cases.empty_list) as H2
    by parses Cases.empty_list.
  split; [apply sample_config_ok | split; [exact H2 |]].
  apply (X6_initiation_response_must_be_an_object Cases.w_list Cases.empty_list
           _ _ _ _ 3 (sample_config_ok _ _ _) H2).
  intros d. discriminate.
Defined.

(** X12 at work: the token endpoint sends an empty [access_token]. *)
Lemma X12_witness :
  expired (Sample.seconds 1000)
    (clock Cases.w_token_empty (clock_reads Sample.st_polling)) 600 = false
  ∧ reply_parses Cases.w_token_empty (requests Sample.st_polling) Cases.token_empty
  ∧ truthy (get [("access_token", JStr ""); ("token_type", JStr "Bearer")] "access_token")
    = false
  ∧ poll_loop Cases.w_token_empty Sample.token_endpoint (JStr "D1") "cli" "s3cret"
      5 600 (Sample.seconds 1000) 1 Sample.st_polling
    = (Return 1,
       State (trace Sample.st_polling
              ++ [Clock (Sample.seconds 1002);
                  Request Sample.token_endpoint Sample.poll_body;
                  Stderr "No access_token returned"]) 2 2).
Proof.
  assert (expired (Sample.seconds 1000)
            (clock Cases.w_token_empty (clock_reads Sample.st_polling)) 600 = false)
    as H1 by (vm_compute; reflexivity).
  assert (reply_parses Cases.w_token_empty (requests Sample.st_polling) Cases.token_empty)
    as H2 by parses Cases.token_empty.
  split; [exact H1 | split; [exact H2 | split; [reflexivity |]]].
  rewrite (X12_falsy_token_counts_as_missing Cases.w_token_empty Sample.token_endpoint
             (JStr "D1") "cli" "s3cret" 5 600 (Sample.seconds 1000)
             [("access_token", JStr ""); ("token_type", JStr "Bearer")] 0
             Sample.st_polling H1 H2 eq_refl eq_refl eq_refl).
  vm_compute. reflexivity.
Defined.

(** X13 at work: the initiation response has an empty [device_code]. *)
Lemma X13_witness :
  config_ok Cases.w_empty_device_code "https://auth.example/" "main" "cli" "s3cret"
  ∧ reply_parses Cases.w_empty_device_code 0 Cases.init_empty_device_code
  ∧ truthy (get [("device_code", JStr ""); ("user_code", JStr "ABCD-EFGH");
                 ("verification_uri", JStr "https://auth.example/device")]
              "device_code") = false
  ∧ run Cases.w_empty_device_code 3
    = (Return 1,
       State [Request Sample.device_endpoint Sample.init_body;
              Stderr "Missing device_code/user_code/verification_uri";
              Stdout (Sample.dumps 0 Cases.init_empty_device_code)] 1 0).
Proof.
  assert (reply_parses Cases.w_empty_device_code 0 Cases.init_empty_device_code) as H2
    by parses Cases.init_empty_device_code.
  split; [apply sample_config_ok | split; [exact H2 | split; [reflexivity |]]].
  rewrite (X13_falsy_required_field_counts_as_missing Cases.w_empty_device_code
             [("device_code", JStr ""); ("user_code", JStr "ABCD-EFGH");
              ("verification_uri", JStr "https://auth.example/device")]
             _ _ _ _ 5 600 3
             (sample_config_ok _ _ _) H2 eq_refl eq_refl eq_refl (or_introl eq_refl)).
  vm_compute. reflexivity.
Defined.


(** X15 at work: the token endpoint answers with the JSON number 7. *)
Lemma X15_witness :
  expired (Sample.seconds 1000)
    (clock Cases.w_number (clock_reads Sample.st_polling)) 600 = false
  ∧ reply_parses Cases.w_number (requests Sample.st_polling) Cases.number
  ∧ args_json Cases.w_number = false
  ∧ poll_loop Cases.w_number Sample.token_endpoint (JStr "D1") "cli" "s3cret"
      5 600 (Sample.seconds 1000) 1 Sample.st_polling
    = (Raise TypeError,
       State (trace Sample.st_polling
              ++ [Clock (Sample.seconds 1002);
                  Request Sample.token_endpoint Sample.poll_body]) 2 2).
Proof.
  assert (expired (Sample.seconds 1000)
            (clock Cases.w_number (clock_reads Sample.st_polling)) 600 = false)
    as H1 by (vm_compute; reflexivity).
  assert (reply_parses Cases.w_number (requests Sample.st_polling) Cases.number)
    as H2 by parses Cases.number.
  split; [exact H1 | split; [exact H2 | split; [reflexivity |]]].
  rewrite (X15_token_response_not_an_object Cases.w_number Sample.token_endpoint
             (JStr "D1") "cli" "s3cret" 5 600 (Sample.seconds 1000) Cases.number 0
             Sample.st_polling H1 H2 ltac:(intros d; discriminate)
             (or_introl eq_refl)).
  vm_compute. reflexivity.
Defined.

(** X16 at work: the initiation response asks for an interval of -1. *)
Lemma X16_witness :
  config_ok Cases.w_negative_interval "https://auth.example/" "main" "cli" "s3cret"
  ∧ reply_parses Cases.w_negative_interval 0 Cases.init_negative_interval
  ∧ reply_parses Cases.w_negative_interval 1 Sample.pending
  ∧ -1 < 0
  ∧ run Cases.w_negative_interval 1
    = (Raise ValueError,
       State (trace Sample.st_polling
              ++ [Clock (Sample.seconds 1000);
                  Request Sample.token_endpoint Sample.poll_body]) 2 2).
Proof.
  assert (reply_parses Cases.w_negative_interval 0 Cases.init_negative_interval) as H2
    by parses Cases.init_negative_interval.
  assert (reply_parses Cases.w_negative_interval 1 Sample.pending) as H3
    by parses Sample.pending.
  assert (-1 < 0) as H4 by lia.
  split; [apply sample_config_ok | split; [exact H2 | split; [exact H3 | split; [exact H4 |]]]].
  rewrite (X16_negative_interval_ends_the_run Cases.w_negative_interval
             [("device_code", JStr "D1"); ("user_code", JStr "ABCD-EFGH");
              ("verification_uri", JStr "https://auth.example/device");
              ("interval", JInt (-1)); ("expires_in", JInt 600)]
             [("error", JStr "authorization_pending")]
             _ _ _ _ "" "authorization_pending" (-1) 600 0
             (sample_config_ok _ _ _) H2 eq_refl eq_refl eq_refl eq_refl eq_refl H4
             eq_refl H3 eq_refl (or_introl eq_refl)).
  vm_compute. reflexivity.
Defined.
End MoreDocuments.

(** X17 at work: neither [REALM] nor [CLIENT_SECRET] is set, and [REALM]
    is the one that is named. *)
Lemma X17_witness :
  present Cases.w_no_realm_no_secret "KEYCLOAK_URL" "https://auth.example/"
  ∧ missing Cases.w_no_realm_no_secret "REALM"
  ∧ missing Cases.w_no_realm_no_secret "CLIENT_SECRET"
  ∧ run Cases.w_no_realm_no_secret 3
    = (SysExit 1, State [Stderr "REALM is required"] 0 0).
Proof.
  assert (present Cases.w_no_realm_no_secret "KEYCLOAK_URL" "https://auth.example/")
    as H1 by (split; [vm_compute; reflexivity | discriminate]).
  assert (missing Cases.w_no_realm_no_secret "REALM") as H2
    by (left; vm_compute; reflexivity).
  assert (missing Cases.w_no_realm_no_secret "CLIENT_SECRET") as H3
    by (left; vm_compute; reflexivity).
  split; [exact H1 | split; [exact H2 | split; [exact H3 |]]].
  destruct (X17_first_missing_variable_is_named Cases.w_no_realm_no_secret 3)
    as (_ & Hrealm & _).
  exact (Hrealm _ H1 H2).
Defined.
